(** * Pulse AI client: conversation state machine and history reconciler

    A shallow embedding of the React client of the Pulse AI symptom
    assistant: the chat form ([ChatComponent], in its session-aware version
    and in the earlier single-shot version), the API service ([Api]), the
    top-level [App] with its history refresh and delete handler, and the
    rename handler of the [Sidebar].

    React state is modelled by explicit state passing: a component's
    [useState] cells are the fields of a record, a setter call is a record
    update, and an event handler is a function from the state the handler
    closed over to the state after it ran.  The calls a handler makes to the
    outside (HTTP requests, callbacks passed as props) are returned as a
    trace, and what the outside answers is a parameter of the handler. *)

From Stdlib Require Import List String Ascii NArith Bool Lia.
Import ListNotations.

Local Open Scope N_scope.
Local Open Scope list_scope.

(** ** JavaScript strings and the few operators the client uses *)

Module Js.

(** A JavaScript string is a sequence of UTF-16 code units. *)
Definition str := list N.

(** ASCII literals of the source, as code units. *)
Fixpoint lit (s : string) : str :=
  match s with
  | EmptyString => []
  | String a r => N_of_ascii a :: lit r
  end.

(** ECMAScript WhiteSpace and LineTerminator code points: what
    [String.prototype.trim] strips. *)
Definition isWhiteSpace (c : N) : bool :=
  existsb (N.eqb c)
    [9; 10; 11; 12; 13; 32; 160; 5760; 8232; 8233; 8239; 8287; 12288; 65279]
  || ((8192 <=? c) && (c <=? 8202)).

Fixpoint trimStart (s : str) : str :=
  match s with
  | [] => []
  | c :: r => if isWhiteSpace c then trimStart r else s
  end.

Definition trimEnd (s : str) : str := rev (trimStart (rev s)).

Definition trim (s : str) : str := trimEnd (trimStart s).

(** Truthiness of a string: only the empty string is falsy. *)
Definition truthy (s : str) : bool :=
  match s with [] => false | _ :: _ => true end.

(** A value that is a string, or [null]/[undefined] (an absent field). *)
Definition truthyO (o : option str) : bool :=
  match o with Some s => truthy s | None => false end.

(** [a || b] on strings. *)
Definition or (a b : str) : str := if truthy a then a else b.

(** [a || null] on a string. *)
Definition orNull (a : str) : option str := if truthy a then Some a else None.

(** [a || b] where [a] may be absent and [b] is a string. *)
Definition orDefault (a : option str) (b : str) : str :=
  match a with Some s => or s b | None => b end.

(** [a || b] where both may be absent. *)
Definition orO (a b : option str) : option str := if truthyO a then a else b.

Fixpoint eqb (a b : str) : bool :=
  match a, b with
  | [], [] => true
  | x :: a', y :: b' => (x =? y) && eqb a' b'
  | _, _ => false
  end.

(** [a === b] on values that are strings or absent. *)
Definition eqbO (a b : option str) : bool :=
  match a, b with
  | Some x, Some y => eqb x y
  | None, None => true
  | _, _ => false
  end.

Fixpoint startsWith (p s : str) : bool :=
  match p, s with
  | [], _ => true
  | x :: p', y :: s' => (x =? y) && startsWith p' s'
  | _ :: _, [] => false
  end.

(** [s.includes(p)] *)
Fixpoint includes (p s : str) : bool :=
  startsWith p s ||
  match s with
  | [] => false
  | _ :: s' => includes p s'
  end.

Fixpoint takeWhile (f : N -> bool) (s : str) : str :=
  match s with
  | [] => []
  | c :: r => if f c then c :: takeWhile f r else []
  end.

(** The last element of [s.split('\n')]: what follows the last line feed. *)
Definition lastLine (s : str) : str :=
  rev (takeWhile (fun c => negb (c =? 10)) (rev s)).

(** Group 1 of [/Message:\s*(.+)/s] when "Message:" has just been matched
    and [rest] is what follows.  [\s*] is greedy and the group then takes
    all that is left; if only white space is left, backtracking hands the
    last character over to the group; if nothing is left there is no match
    here. *)
Definition afterMessage (rest : str) : option str :=
  match trimStart rest with
  | (_ :: _) as group => Some group
  | [] => match rev rest with
          | [] => None
          | c :: _ => Some [c]
          end
  end.

(** [s.match(/Message:\s*(.+)/s)]: group 1 of the leftmost match, if any. *)
Fixpoint matchMessage (s : str) : option str :=
  match (if startsWith (lit "Message:") s then afterMessage (skipn 8 s) else None) with
  | Some group => Some group
  | None =>
      match s with
      | [] => None
      | _ :: r => matchMessage r
      end
  end.

(** [s.substring(0, n)] *)
Definition substring0 (n : nat) (s : str) : str := firstn n s.

(** A JSON value of a response body.  A number is kept as the text
    JavaScript prints for it, together with whether it is zero; of an object
    only its being an object matters here. *)
#[warnings="-register-all"]
Inductive json :=
| JNull
| JBool (b : bool)
| JNumber (zero : bool) (printed : str)
| JString (s : str)
| JArray (items : list json)
| JObject.

(** Truthiness of a JSON value. *)
Definition truthyJ (v : json) : bool :=
  match v with
  | JNull => false
  | JBool b => b
  | JNumber zero _ => negb zero
  | JString s => truthy s
  | JArray _ => true
  | JObject => true
  end.

(** [String(v)]: what [new Error(v)] takes as its message.  An array joins
    its elements with commas, [null] elements giving nothing. *)
Fixpoint toString (v : json) : str :=
  match v with
  | JNull => lit "null"
  | JBool true => lit "true"
  | JBool false => lit "false"
  | JNumber _ printed => printed
  | JString s => s
  | JArray items =>
      (fix join (items : list json) : str :=
         match items with
         | [] => []
         | item :: rest =>
             match item with JNull => [] | _ => toString item end
             ++ match rest with [] => [] | _ :: _ => 44 :: join rest end
         end) items
  | JObject => lit "[object Object]"
  end.

(** [String(v || fallback)] where [v] is a property that may be absent. *)
Definition orText (v : option json) (fallback : str) : str :=
  match v with
  | Some value => if truthyJ value then toString value else fallback
  | None => fallback
  end.

(** The message of the TypeError raised by reading [detail] of [null], as
    V8 words it. *)
Definition cannotReadDetail : str :=
  lit "Cannot read properties of null (reading 'detail')".

(** The outcome of awaiting a promise: the value it resolved to, or the
    [message] of the [Error] it was rejected with. *)
Inductive settled (A : Type) : Type :=
| Resolved (a : A)
| Rejected (message : str).
Arguments Resolved {A} a.
Arguments Rejected {A} message.

End Js.

Notation "'js' s" := (Js.lit s%string) (at level 9, s at level 0, only parsing).

(** ** The API service (services/api.js)

    Each function wraps one HTTP call made with axios and turns an axios
    failure into an [Error] with a message for the user.  The HTTP exchange
    itself is the outside world: its outcome is the argument. *)

Module Api.
Import Js.

(** The body of a non-2xx response, [error.response.data]: [null], or a
    value of which the property [detail] can be read.  The property is
    absent in an object without it and in a body that is a text, a number
    or an array. *)
Inductive Body :=
| NullBody
| Data (detail : option json).

(** What the handlers read of an axios error. *)
Record AxiosError := {
  response : option Body;        (* the server answered with a failure *)
  code : option str;
  message : str;
  request : bool                 (* a request was sent *)
}.

Inductive axios (A : Type) : Type :=
| Fulfilled (data : A)           (* response.data *)
| Failed (error : AxiosError).
Arguments Fulfilled {A} data.
Arguments Failed {A} error.

(** The [catch] block shared by the functions of the service; [onResponse]
    and [otherwise] are the two messages that differ between them.  The
    result is the message of what the block throws: the new [Error], or the
    TypeError of reading [detail] when the body is [null]. *)
Definition normalize (onResponse otherwise : str) (error : AxiosError) : str :=
  match response error with
  | Some NullBody => cannotReadDetail
  | Some (Data detail) => orText detail onResponse
  | None =>
      if eqbO (code error) (Some (js "ECONNABORTED"))
         || includes (js "timeout") (message error)
      then js "Request timed out. Please check your connection and try again."
      else if request error
      then js "Unable to connect to the server. Please check if the backend is running."
      else otherwise
  end.

Definition createChat {A} (post : axios A) : settled A :=
  match post with
  | Fulfilled data => Resolved data
  | Failed error =>
      Rejected (normalize (js "An error occurred while processing your request")
                          (js "An unexpected error occurred") error)
  end.

Definition fetchChatHistory {A} (get : axios A) : settled A :=
  match get with
  | Fulfilled data => Resolved data
  | Failed error =>
      Rejected (normalize (js "An error occurred")
                          (js "An unexpected error occurred while fetching chat history")
                          error)
  end.

Definition fetchChatSession {A} (get : axios A) : settled A :=
  match get with
  | Fulfilled data => Resolved data
  | Failed error =>
      Rejected (normalize (js "An error occurred")
                          (js "An unexpected error occurred while fetching chat session")
                          error)
  end.

Definition updateChatSession {A} (patch : axios A) : settled A :=
  match patch with
  | Fulfilled data => Resolved data
  | Failed error =>
      Rejected (normalize (js "An error occurred")
                          (js "An unexpected error occurred while updating chat") error)
  end.

(** [deleteChatSession] has no branch for the timeout. *)
Definition deleteChatSession {A} (delete : axios A) : settled A :=
  match delete with
  | Fulfilled data => Resolved data
  | Failed error =>
      Rejected
        match response error with
        | Some NullBody => cannotReadDetail
        | Some (Data detail) => orText detail (js "An error occurred")
        | None =>
            if request error
            then js "Unable to connect to the server. Please check if the backend is running."
            else js "An unexpected error occurred while deleting chat"
        end
  end.

End Api.

(** ** The API service before the request timeout was introduced

    The earlier services/api.js calls axios without a timeout and its
    [catch] blocks have no branch for one. *)

Module ApiPlain.
Import Js Api.

Definition normalize (onResponse otherwise : str) (error : AxiosError) : str :=
  match response error with
  | Some NullBody => cannotReadDetail
  | Some (Data detail) => orText detail onResponse
  | None =>
      if request error
      then js "Unable to connect to the server. Please check if the backend is running."
      else otherwise
  end.

Definition createChat {A} (post : axios A) : settled A :=
  match post with
  | Fulfilled data => Resolved data
  | Failed error =>
      Rejected (normalize (js "An error occurred while processing your request")
                          (js "An unexpected error occurred") error)
  end.

Definition fetchChatHistory {A} (get : axios A) : settled A :=
  match get with
  | Fulfilled data => Resolved data
  | Failed error =>
      Rejected (normalize (js "An error occurred")
                          (js "An unexpected error occurred while fetching chat history")
                          error)
  end.

Definition fetchChatSession {A} (get : axios A) : settled A :=
  match get with
  | Fulfilled data => Resolved data
  | Failed error =>
      Rejected (normalize (js "An error occurred")
                          (js "An unexpected error occurred while fetching chat session")
                          error)
  end.

Definition updateChatSession {A} (patch : axios A) : settled A :=
  match patch with
  | Fulfilled data => Resolved data
  | Failed error =>
      Rejected (normalize (js "An error occurred")
                          (js "An unexpected error occurred while updating chat") error)
  end.

Definition deleteChatSession {A} (delete : axios A) : settled A :=
  match delete with
  | Fulfilled data => Resolved data
  | Failed error =>
      Rejected (normalize (js "An error occurred")
                          (js "An unexpected error occurred while deleting chat") error)
  end.

End ApiPlain.

(** ** Session records as the client reads them *)

Module Session.
Import Js.

(** A turn as the store keeps it. *)
Record StoredMessage := { role : str; content : str }.

(** A chat session of the history list.  The store names the identifier
    [id] (or [_id]); either may be absent. *)
Record Chat := {
  id : option str;
  _id : option str;
  patient_name : option str;
  problem : option str;
  additional_info : option str;
  ai_response : option str;
  messages : option (list StoredMessage);   (* absent, or an array *)
  pinned : bool
}.

(** [chat.id || chat._id]: the identifier the sidebar passes on. *)
Definition chatId (chat : Chat) : option str := orO (id chat) (_id chat).

(** The body of a PATCH: only the properties present are sent. *)
Record Updates := {
  new_problem : option str;
  new_pinned : option bool
}.

(** Requests to the store and dialogs shown, in the order made. *)
Inductive Event :=
| Get                                          (* GET /api/sessions *)
| Patch (chatId : option str) (updates : Updates)
| Delete (chatId : option str)
| Alert (text : str).

(** The [useState] cells of [App]. *)
Record State := {
  chatHistory : list Chat;
  currentChat : option Chat;
  loadingHistory : bool
}.

Definition initial : State :=
  {| chatHistory := []; currentChat := None; loadingHistory := true |}.

Definition setChatHistory (v : list Chat) (s : State) : State :=
  {| chatHistory := v; currentChat := currentChat s;
     loadingHistory := loadingHistory s |}.

Definition setCurrentChat (v : option Chat) (s : State) : State :=
  {| chatHistory := chatHistory s; currentChat := v;
     loadingHistory := loadingHistory s |}.

Definition setLoadingHistory (v : bool) (s : State) : State :=
  {| chatHistory := chatHistory s; currentChat := currentChat s;
     loadingHistory := v |}.

Definition handleNewChat (s : State) : State := setCurrentChat None s.

Definition handleSelectChat (chat : Chat) (s : State) : State :=
  setCurrentChat (Some chat) s.

(** The test of [handleChatDelete]:
    [currentChat && (currentChat.id === chatId || currentChat._id === chatId)] *)
Definition isCurrentChat (s : State) (chatId : option str) : bool :=
  match currentChat s with
  | Some chat => eqbO (id chat) chatId || eqbO (_id chat) chatId
  | None => false
  end.

End Session.

(** ** The chat form with session continuation (components/ChatComponent.js) *)

Module ChatComponent.
Import Js.

Inductive MessageType := user | ai.

(** An entry of the [messages] array. *)
Record Message := {
  type : MessageType;
  content : option str;          (* a stored [ai_response] may be absent *)
  sender : option str;           (* the [name] property; absent on ai turns *)
  additional : option str        (* only on turns rebuilt from old records *)
}.

Record FieldErrors := { name_error : bool; message_error : bool }.

Record PatientInfo := { patient_name : str; patient_problem : str }.

(** The [useState] cells of the component. *)
Record State := {
  name : str;
  problem : str;
  message : str;
  loading : bool;
  error : str;
  fieldErrors : FieldErrors;
  messages : list Message;
  hasInitialSubmission : bool;
  initialPatientInfo : PatientInfo;
  currentSessionId : option str
}.

(** The [chatData] object posted to [/api/chat]; [session_id] is a
    property that is added to the object or not. *)
Record ChatData := {
  chat_name : str;
  chat_problem : option str;
  chat_message : str;
  session_id : option str
}.

(** What the handler reads of the body of a successful response. *)
Record Response := {
  ai_response : option str;
  id : option str;
  _id : option str
}.

(** The argument of the [onChatComplete] callback. *)
Record Completed := {
  completed_problem : str;
  completed_name : str;
  completed_ai_response : str;
  completed_id : option str
}.

(** Calls the handler makes to the outside. *)
Inductive Event :=
| CreateChat (chatData : ChatData)
| OnChatComplete (chat : Completed).

(** Setters. *)
Definition setName (v : str) (s : State) : State :=
  {| name := v; problem := problem s; message := message s; loading := loading s;
     error := error s; fieldErrors := fieldErrors s; messages := messages s;
     hasInitialSubmission := hasInitialSubmission s;
     initialPatientInfo := initialPatientInfo s;
     currentSessionId := currentSessionId s |}.

Definition setProblem (v : str) (s : State) : State :=
  {| name := name s; problem := v; message := message s; loading := loading s;
     error := error s; fieldErrors := fieldErrors s; messages := messages s;
     hasInitialSubmission := hasInitialSubmission s;
     initialPatientInfo := initialPatientInfo s;
     currentSessionId := currentSessionId s |}.

Definition setMessage (v : str) (s : State) : State :=
  {| name := name s; problem := problem s; message := v; loading := loading s;
     error := error s; fieldErrors := fieldErrors s; messages := messages s;
     hasInitialSubmission := hasInitialSubmission s;
     initialPatientInfo := initialPatientInfo s;
     currentSessionId := currentSessionId s |}.

Definition setLoading (v : bool) (s : State) : State :=
  {| name := name s; problem := problem s; message := message s; loading := v;
     error := error s; fieldErrors := fieldErrors s; messages := messages s;
     hasInitialSubmission := hasInitialSubmission s;
     initialPatientInfo := initialPatientInfo s;
     currentSessionId := currentSessionId s |}.

Definition setError (v : str) (s : State) : State :=
  {| name := name s; problem := problem s; message := message s; loading := loading s;
     error := v; fieldErrors := fieldErrors s; messages := messages s;
     hasInitialSubmission := hasInitialSubmission s;
     initialPatientInfo := initialPatientInfo s;
     currentSessionId := currentSessionId s |}.

Definition setFieldErrors (v : FieldErrors) (s : State) : State :=
  {| name := name s; problem := problem s; message := message s; loading := loading s;
     error := error s; fieldErrors := v; messages := messages s;
     hasInitialSubmission := hasInitialSubmission s;
     initialPatientInfo := initialPatientInfo s;
     currentSessionId := currentSessionId s |}.

(** [setMessages] is called with an updater function of the previous array. *)
Definition setMessages (f : list Message -> list Message) (s : State) : State :=
  {| name := name s; problem := problem s; message := message s; loading := loading s;
     error := error s; fieldErrors := fieldErrors s; messages := f (messages s);
     hasInitialSubmission := hasInitialSubmission s;
     initialPatientInfo := initialPatientInfo s;
     currentSessionId := currentSessionId s |}.

Definition setHasInitialSubmission (v : bool) (s : State) : State :=
  {| name := name s; problem := problem s; message := message s; loading := loading s;
     error := error s; fieldErrors := fieldErrors s; messages := messages s;
     hasInitialSubmission := v;
     initialPatientInfo := initialPatientInfo s;
     currentSessionId := currentSessionId s |}.

Definition setInitialPatientInfo (v : PatientInfo) (s : State) : State :=
  {| name := name s; problem := problem s; message := message s; loading := loading s;
     error := error s; fieldErrors := fieldErrors s; messages := messages s;
     hasInitialSubmission := hasInitialSubmission s;
     initialPatientInfo := v;
     currentSessionId := currentSessionId s |}.

Definition setCurrentSessionId (v : option str) (s : State) : State :=
  {| name := name s; problem := problem s; message := message s; loading := loading s;
     error := error s; fieldErrors := fieldErrors s; messages := messages s;
     hasInitialSubmission := hasInitialSubmission s;
     initialPatientInfo := initialPatientInfo s;
     currentSessionId := v |}.

Definition noFieldErrors : FieldErrors :=
  {| name_error := false; message_error := false |}.

Definition noDisease : str := js "No specific disease mentioned".

(** The initial values of the [useState] cells. *)
Definition initial : State :=
  {| name := []; problem := []; message := []; loading := false;
     error := []; fieldErrors := noFieldErrors; messages := [];
     hasInitialSubmission := false;
     initialPatientInfo := {| patient_name := []; patient_problem := [] |};
     currentSessionId := None |}.

(** What the transcript shows of a stored turn: of a user turn only the
    message part of the text that was sent to the model. *)
Definition displayContent (msg : Session.StoredMessage) : str :=
  if eqb (Session.role msg) (js "user") then
    match matchMessage (Session.content msg) with
    | Some group => trim group
    | None =>
        let last := lastLine (Session.content msg) in
        if truthy last
           && negb (includes (js "Patient Name:") last)
           && negb (includes (js "Problem:") last)
        then trim last
        else Session.content msg
    end
  else Session.content msg.

Definition formattedMessage (currentChat : Session.Chat)
    (msg : Session.StoredMessage) : Message :=
  {| type := if eqb (Session.role msg) (js "user") then user else ai;
     content := Some (displayContent msg);
     sender := if eqb (Session.role msg) (js "user")
               then Some (orDefault (Session.patient_name currentChat) (js "Anonymous"))
               else None;
     additional := None |}.

(** The [if] branch of the effect on [currentChat]: a chat of the history
    was selected.  The form becomes active on that session. *)
Definition useEffect_chat (currentChat : Session.Chat) (s : State) : State :=
  let s := setName (orDefault (Session.patient_name currentChat) []) s in
  let s := setProblem (orDefault (Session.problem currentChat) []) s in
  let s := setMessage [] s in
  let s := setInitialPatientInfo
             {| patient_name :=
                  orDefault (Session.patient_name currentChat) (js "Anonymous");
                patient_problem :=
                  orDefault (Session.problem currentChat)
                            (js "No specific disease mentioned") |} s in
  let s := setHasInitialSubmission true s in
  let s := setCurrentSessionId
             (orO (orO (Session.id currentChat) (Session._id currentChat)) None) s in
  match Session.messages currentChat with
  | Some ((_ :: _) as stored) =>
      setMessages (fun _ => map (formattedMessage currentChat) stored) s
  | _ =>
      setMessages
        (fun _ =>
           [{| type := user;
               content := Some (orDefault (Session.additional_info currentChat) []);
               sender := Some (orDefault (Session.patient_name currentChat)
                                         (js "Anonymous"));
               additional := Session.additional_info currentChat |};
            {| type := ai;
               content := Session.ai_response currentChat;
               sender := None;
               additional := None |}]) s
  end.

(** The [else] branch of the effect on [currentChat]: what runs when
    [currentChat] becomes [null] (new chat, or the open chat was deleted). *)
Definition useEffect_noChat (s : State) : State :=
  let s := setName [] s in
  let s := setProblem [] s in
  let s := setMessage [] s in
  let s := setMessages (fun _ => []) s in
  let s := setError [] s in
  let s := setFieldErrors noFieldErrors s in
  let s := setLoading false s in
  let s := setHasInitialSubmission false s in
  let s := setInitialPatientInfo {| patient_name := []; patient_problem := [] |} s in
  setCurrentSessionId None s.

(** The effect on [currentChat]. *)
Definition useEffect_currentChat (currentChat : option Session.Chat) (s : State)
    : State :=
  match currentChat with
  | Some chat => useEffect_chat chat s
  | None => useEffect_noChat s
  end.

(** [onChange] of the name, disease and message inputs. *)
Definition onChangeName (value : str) (s : State) : State :=
  let s' := setName value s in
  if name_error (fieldErrors s)
  then setError []
         (setFieldErrors {| name_error := false;
                            message_error := message_error (fieldErrors s) |} s')
  else s'.

Definition onChangeProblem (value : str) (s : State) : State := setProblem value s.

Definition onChangeMessage (value : str) (s : State) : State :=
  let s' := setMessage value s in
  if message_error (fieldErrors s)
  then setError []
         (setFieldErrors {| name_error := name_error (fieldErrors s);
                            message_error := false |} s')
  else s'.

(** [handleSubmit] is an async function: it runs up to [await
    createChat(chatData)], and resumes when the promise settles.  [c] is
    the state the handler closed over: every plain read of a state variable
    in the body reads [c]. *)

(** The object built for the request. *)
Definition chatData (c : State) : ChatData :=
  let patientName :=
    if hasInitialSubmission c then patient_name (initialPatientInfo c)
    else or (trim (name c)) (js "Anonymous") in
  let patientProblem :=
    if hasInitialSubmission c
    then (if negb (eqb (patient_problem (initialPatientInfo c)) noDisease)
          then Some (patient_problem (initialPatientInfo c)) else None)
    else orNull (trim (problem c)) in
  {| chat_name := patientName;
     chat_problem := patientProblem;
     chat_message := trim (message c);
     session_id :=
       if hasInitialSubmission c && truthyO (currentSessionId c)
       then currentSessionId c else None |}.

Definition userMessage (c : State) : Message :=
  {| type := user;
     content := Some (trim (message c));
     sender := Some (if hasInitialSubmission c then patient_name (initialPatientInfo c)
                     else or (trim (name c)) (js "Anonymous"));
     additional := None |}.

(** Where the handler stands when it stops running for the first time:
    it returned on a validation failure, or it awaits the store. *)
Inductive Submission :=
| Returned (s : State)
| Awaiting (s : State) (request : ChatData).

(** First part of [handleSubmit]: validation, then the request and the
    optimistic append of the user turn. *)
Definition submit (c : State) : Submission :=
  let s := setFieldErrors noFieldErrors c in
  if negb (hasInitialSubmission c) && negb (truthy (trim (name c))) then
    Returned (setFieldErrors {| name_error := true; message_error := false |}
               (setError (js "Please enter your name") s))
  else if negb (truthy (trim (message c))) then
    Returned (setFieldErrors {| name_error := false; message_error := true |}
               (setError (if hasInitialSubmission c
                          then js "Please enter your question or message"
                          else js "Please describe your medical issue or symptoms") s))
  else
    let s := setError [] s in
    let s := setFieldErrors noFieldErrors s in
    let s := setLoading true s in
    let s := setMessages (fun prev => prev ++ [userMessage c]) s in
    Awaiting s (chatData c).

(** Second part of [handleSubmit]: the rest of the [try] block when the
    promise resolved, the [catch] block when it was rejected, then
    [finally].  [onChatComplete] tells whether the prop was passed; [s] is
    the state at the time the promise settles. *)
Definition settle (onChatComplete : bool) (c : State)
    (outcome : settled Response) (s : State) : State * list Event :=
  match outcome with
  | Resolved response =>
      let aiResponse := orDefault (ai_response response) [] in
      let sessionId := orO (orO (id response) (_id response)) None in
      let s := setMessages
                 (fun prev => prev ++ [{| type := ai; content := Some aiResponse;
                                          sender := None; additional := None |}]) s in
      let s :=
        if negb (hasInitialSubmission c) then
          let s := setInitialPatientInfo
                     {| patient_name := or (trim (name c)) (js "Anonymous");
                        patient_problem := or (trim (problem c)) noDisease |} s in
          let s := setHasInitialSubmission true s in
          setCurrentSessionId sessionId s
        else if truthyO sessionId && negb (eqbO sessionId (currentSessionId c))
        then setCurrentSessionId sessionId s
        else s in
      let calls :=
        if onChatComplete
        then [OnChatComplete
                {| completed_problem :=
                     or (trim (problem c)) (substring0 50 (trim (message c)));
                   completed_name := or (trim (name c)) (js "Anonymous");
                   completed_ai_response := aiResponse;
                   completed_id := sessionId |}]
        else [] in
      let s := setMessage [] s in
      (setLoading false s, calls)
  | Rejected errMessage =>
      (setLoading false
         (setError (or errMessage (js "An unexpected error occurred")) s),
       [])
  end.

(** [handleSubmit] run to completion with nothing else happening while
    the request is in flight; [createChat] is the store's answer to the
    request.  Returns the state afterwards and the calls made, in order. *)
Definition handleSubmit (onChatComplete : bool)
    (createChat : ChatData -> settled Response) (c : State)
    : State * list Event :=
  match submit c with
  | Returned s => (s, [])
  | Awaiting s request =>
      let (s', calls) := settle onChatComplete c (createChat request) s in
      (s', CreateChat request :: calls)
  end.

(** The requests sent to the store among the calls of a handler. *)
Definition storeCalls (calls : list Event) : list ChatData :=
  flat_map (fun e => match e with
                     | CreateChat d => [d]
                     | OnChatComplete _ => []
                     end) calls.

(** The [disabled] attribute of the submit button. *)
Definition submitDisabled (s : State) : bool :=
  loading s
  || (if hasInitialSubmission s
      then negb (truthy (trim (message s)))
      else negb (truthy (trim (name s))) || negb (truthy (trim (message s)))).

End ChatComponent.

(** ** The earlier chat form (Client_Side/src/components/ChatComponent.js)

    One request per chat: name and disease are required, the message is
    optional, and the component keeps no session. *)

Module ClientSide.
Import Js.

Inductive MessageType := user | ai.

Record Message := {
  type : MessageType;
  content : option str;          (* [result.ai_response] may be absent *)
  sender : option str;           (* the [name] property *)
  additional : option str
}.

Record FieldErrors := { name_error : bool; disease_error : bool }.

Record State := {
  name : str;
  problem : str;
  message : str;
  response : option str;
  loading : bool;
  error : str;
  fieldErrors : FieldErrors;
  messages : list Message
}.

Record ChatData := {
  chat_name : str;
  chat_problem : str;
  chat_message : option str
}.

Record Response := { ai_response : option str; id : option str }.

Record Completed := {
  completed_problem : str;
  completed_name : str;
  completed_ai_response : option str;
  completed_id : option str
}.

Inductive Event :=
| CreateChat (chatData : ChatData)
| OnChatComplete (chat : Completed).

Definition noFieldErrors : FieldErrors :=
  {| name_error := false; disease_error := false |}.

Definition initial : State :=
  {| name := []; problem := []; message := []; response := Some [];
     loading := false; error := []; fieldErrors := noFieldErrors; messages := [] |}.

Definition chatData (c : State) : ChatData :=
  {| chat_name := or (trim (name c)) (js "Anonymous");
     chat_problem := trim (problem c);
     chat_message := orNull (trim (message c)) |}.

(** The template literal shown as the user turn. *)
Definition userMessageContent (c : State) : str :=
  js "Name: " ++ trim (name c) ++ [10] ++ js "Disease: " ++ trim (problem c)
  ++ (if truthy (trim (message c))
      then [10] ++ js "Additional Info: " ++ trim (message c) else []).

Inductive Submission :=
| Returned (s : State)
| Awaiting (s : State) (request : ChatData).

(** [handleSubmit] up to [await createChat(...)]. *)
Definition submit (c : State) : Submission :=
  if negb (truthy (trim (name c))) then
    Returned {| name := name c; problem := problem c; message := message c;
                response := response c; loading := loading c;
                error := js "Please enter your name";
                fieldErrors := {| name_error := true; disease_error := false |};
                messages := messages c |}
  else if negb (truthy (trim (problem c))) then
    Returned {| name := name c; problem := problem c; message := message c;
                response := response c; loading := loading c;
                error := js "Please describe your disease or medical problem";
                fieldErrors := {| name_error := false; disease_error := true |};
                messages := messages c |}
  else
    Awaiting {| name := name c; problem := problem c; message := message c;
                response := Some []; loading := true; error := [];
                fieldErrors := noFieldErrors; messages := messages c |}
             (chatData c).

(** [handleSubmit] from the point where the promise settles. *)
Definition settle (onChatComplete : bool) (c : State)
    (outcome : settled Response) (s : State) : State * list Event :=
  match outcome with
  | Resolved result =>
      let userMessage :=
        {| type := user; content := Some (userMessageContent c);
           sender := Some (trim (name c)); additional := Some (message c) |} in
      let aiMessage :=
        {| type := ai; content := ai_response result;
           sender := None; additional := None |} in
      ({| name := []; problem := []; message := [];
          response := ai_response result; loading := false; error := error s;
          fieldErrors := fieldErrors s;
          messages := messages s ++ [userMessage; aiMessage] |},
       if onChatComplete
       then [OnChatComplete
               {| completed_problem := trim (problem c);
                  completed_name := or (trim (name c)) (js "Anonymous");
                  completed_ai_response := ai_response result;
                  completed_id := id result |}]
       else [])
  | Rejected errMessage =>
      ({| name := name s; problem := problem s; message := message s;
          response := response s; loading := false;
          error := or errMessage (js "An unexpected error occurred");
          fieldErrors := fieldErrors s; messages := messages s |},
       [])
  end.

Definition handleSubmit (onChatComplete : bool)
    (createChat : ChatData -> settled Response) (c : State)
    : State * list Event :=
  match submit c with
  | Returned s => (s, [])
  | Awaiting s request =>
      let (s', calls) := settle onChatComplete c (createChat request) s in
      (s', CreateChat request :: calls)
  end.

Definition storeCalls (calls : list Event) : list ChatData :=
  flat_map (fun e => match e with
                     | CreateChat d => [d]
                     | OnChatComplete _ => []
                     end) calls.

(** The [disabled] attribute of the submit button. *)
Definition submitDisabled (s : State) : bool :=
  loading s || negb (truthy (trim (name s))) || negb (truthy (trim (problem s))).

(** [onChange] of the name, disease and message inputs. *)
Definition onChangeName (value : str) (s : State) : State :=
  {| name := value; problem := problem s; message := message s;
     response := response s; loading := loading s;
     error := if name_error (fieldErrors s) then [] else error s;
     fieldErrors :=
       if name_error (fieldErrors s)
       then {| name_error := false;
               disease_error := disease_error (fieldErrors s) |}
       else fieldErrors s;
     messages := messages s |}.

Definition onChangeProblem (value : str) (s : State) : State :=
  {| name := name s; problem := value; message := message s;
     response := response s; loading := loading s;
     error := if disease_error (fieldErrors s) then [] else error s;
     fieldErrors :=
       if disease_error (fieldErrors s)
       then {| name_error := name_error (fieldErrors s);
               disease_error := false |}
       else fieldErrors s;
     messages := messages s |}.

Definition onChangeMessage (value : str) (s : State) : State :=
  {| name := name s; problem := problem s; message := value;
     response := response s; loading := loading s; error := error s;
     fieldErrors := fieldErrors s; messages := messages s |}.

End ClientSide.

(** ** App calling axios directly (frontend/src/App.js)

    The [catch] blocks of this version log [err.response.data.detail] before
    anything else.  When the body of the error response is [null] that read
    throws a TypeError, and the rest of the block is skipped. *)

Module App.
Import Js Api Session.

(** Whether the log of a [catch] block throws: the server answered and the
    body is [null]. *)
Definition logThrows (error : AxiosError) : bool :=
  match response error with
  | Some NullBody => true
  | _ => false
  end.

(** The history refresh.  [get] is the outcome of the GET request.  When
    the log throws, [setChatHistory([])] is not reached; [finally] runs in
    every case. *)
Definition fetchChatHistory (get : axios (list Chat)) (s : State)
    : State * list Event :=
  let s := setLoadingHistory true s in
  let s :=
    match get with
    | Fulfilled data => setChatHistory data s
    | Failed error => if logThrows error then s else setChatHistory [] s
    end in
  (setLoadingHistory false s, [Get]).

Definition addToHistory (get : axios (list Chat)) (s : State)
    : State * list Event :=
  fetchChatHistory get s.

(** The alert of the [catch] blocks of the update and delete handlers: none
    when the log before it throws. *)
Definition alertFor (onResponse : str) (error : AxiosError) : list Event :=
  match response error with
  | Some NullBody => []
  | Some (Data _) => [Alert onResponse]
  | None =>
      if request error then [Alert (js "Unable to connect to the server.")]
      else [Alert (js "An unexpected error occurred.")]
  end.

(** What the [catch] blocks of the update and delete handlers throw: the
    error caught, or the TypeError of the log. *)
Definition thrown (error : AxiosError) : str :=
  if logThrows error then cannotReadDetail else message error.

(** [handleChatUpdate]: PATCH, then refresh; on failure the log, an alert,
    and the error is thrown again.  The third component is what the returned
    promise settles to. *)
Definition handleChatUpdate (patch : axios unit) (get : axios (list Chat))
    (chatId : option str) (updates : Updates) (s : State)
    : State * list Event * settled unit :=
  match patch with
  | Fulfilled _ =>
      let (s', calls) := fetchChatHistory get s in
      (s', Patch chatId updates :: calls, Resolved tt)
  | Failed error =>
      (s, Patch chatId updates
          :: alertFor (js "Failed to update chat. Please try again.") error,
       Rejected (thrown error))
  end.

(** [handleChatDelete]: DELETE, clear [currentChat] if it is the deleted
    one, then refresh. *)
Definition handleChatDelete (delete : axios unit) (get : axios (list Chat))
    (chatId : option str) (c : State)
    : State * list Event * settled unit :=
  match delete with
  | Fulfilled _ =>
      let s := if isCurrentChat c chatId then setCurrentChat None c else c in
      let (s', calls) := fetchChatHistory get s in
      (s', Delete chatId :: calls, Resolved tt)
  | Failed error =>
      (c, Delete chatId
          :: alertFor (js "Failed to delete chat. Please try again.") error,
       Rejected (thrown error))
  end.

End App.

(** ** App calling the API service (the later App.js) *)

Module AppService.
Import Js Api Session.

Definition loadChatHistory (get : axios (list Chat)) (s : State)
    : State * list Event :=
  let s := setLoadingHistory true s in
  let s :=
    match Api.fetchChatHistory get with
    | Resolved data => setChatHistory data s
    | Rejected _ => setChatHistory [] s
    end in
  (setLoadingHistory false s, [Get]).

Definition addToHistory (get : axios (list Chat)) (s : State)
    : State * list Event :=
  loadChatHistory get s.

Definition handleChatUpdate (patch : axios unit) (get : axios (list Chat))
    (chatId : option str) (updates : Updates) (s : State)
    : State * list Event * settled unit :=
  match Api.updateChatSession patch with
  | Resolved _ =>
      let (s', calls) := loadChatHistory get s in
      (s', Patch chatId updates :: calls, Resolved tt)
  | Rejected errMessage =>
      (s, [Patch chatId updates;
           Alert (js "Failed to update chat. Please try again.")],
       Rejected errMessage)
  end.

Definition handleChatDelete (delete : axios unit) (get : axios (list Chat))
    (chatId : option str) (c : State)
    : State * list Event * settled unit :=
  match Api.deleteChatSession delete with
  | Resolved _ =>
      let s := if isCurrentChat c chatId then setCurrentChat None c else c in
      let (s', calls) := loadChatHistory get s in
      (s', Delete chatId :: calls, Resolved tt)
  | Rejected errMessage =>
      (c, [Delete chatId; Alert (js "Failed to delete chat. Please try again.")],
       Rejected errMessage)
  end.

End AppService.

(** ** The sidebar's rename and delete handlers (components/Sidebar.js)

    The sidebar acts on the history through the callbacks [App] passes it.
    A callback is a transformer of the parent's world [W] that also tells
    what its promise settled to. *)

Module Sidebar.
Import Js Session.

Record State := {
  isOpen : bool;
  openMenuId : option str;
  renamingChatId : option str;
  newChatName : str;
  deletingChat : option Chat;
  isDeleting : bool
}.

Definition initial : State :=
  {| isOpen := true; openMenuId := None; renamingChatId := None;
     newChatName := []; deletingChat := None; isDeleting := false |}.

Definition handleRename (chat : Chat) (s : State) : State :=
  {| isOpen := isOpen s; openMenuId := None;
     renamingChatId := chatId chat;
     newChatName := orDefault (problem chat) (js "Untitled Chat");
     deletingChat := deletingChat s; isDeleting := isDeleting s |}.

(** [onChange] of the rename input. *)
Definition onChangeNewChatName (value : str) (s : State) : State :=
  {| isOpen := isOpen s; openMenuId := openMenuId s;
     renamingChatId := renamingChatId s; newChatName := value;
     deletingChat := deletingChat s; isDeleting := isDeleting s |}.

(** [setRenamingChatId(null); setNewChatName('')] *)
Definition endRename (s : State) : State :=
  {| isOpen := isOpen s; openMenuId := openMenuId s;
     renamingChatId := None; newChatName := [];
     deletingChat := deletingChat s; isDeleting := isDeleting s |}.

Definition handleCancelRename (s : State) : State := endRename s.

Definition handleSaveRename {W : Type}
    (onChatUpdate : option (option str -> Updates -> W -> W * settled unit))
    (chatId : option str) (c : State) (w : W) : State * W :=
  if truthy (trim (newChatName c)) then
    match onChatUpdate with
    | Some update =>
        let (w', outcome) :=
          update chatId {| new_problem := Some (trim (newChatName c));
                           new_pinned := None |} w in
        match outcome with
        | Resolved _ => (endRename c, w')
        | Rejected _ => (c, w')       (* renaming stays open to try again *)
        end
    | None => (endRename c, w)
    end
  else (endRename c, w).

Definition handlePin {W : Type}
    (onChatUpdate : option (option str -> Updates -> W -> W * settled unit))
    (chat : Chat) (c : State) (w : W) : State * W :=
  let s := {| isOpen := isOpen c; openMenuId := None;
              renamingChatId := renamingChatId c; newChatName := newChatName c;
              deletingChat := deletingChat c; isDeleting := isDeleting c |} in
  match onChatUpdate with
  | Some update =>
      (s, fst (update (chatId chat)
                 {| new_problem := None; new_pinned := Some (negb (pinned chat)) |} w))
  | None => (s, w)
  end.

(** Opens the confirmation modal. *)
Definition handleDelete (chat : Chat) (s : State) : State :=
  {| isOpen := isOpen s; openMenuId := None;
     renamingChatId := renamingChatId s; newChatName := newChatName s;
     deletingChat := Some chat; isDeleting := isDeleting s |}.

Definition handleCancelDelete (s : State) : State :=
  {| isOpen := isOpen s; openMenuId := openMenuId s;
     renamingChatId := renamingChatId s; newChatName := newChatName s;
     deletingChat := None; isDeleting := false |}.

Definition handleConfirmDelete {W : Type}
    (onChatDelete : option (option str -> W -> W * settled unit))
    (c : State) (w : W) : State * W :=
  match deletingChat c with
  | None => (c, w)
  | Some chat =>
      let closed := {| isOpen := isOpen c; openMenuId := openMenuId c;
                       renamingChatId := renamingChatId c;
                       newChatName := newChatName c;
                       deletingChat := None; isDeleting := false |} in
      match onChatDelete with
      | Some delete => (closed, fst (delete (chatId chat) w))
      | None => (closed, w)
      end
  end.

End Sidebar.

(** ** The mounted client: [App] with its [Sidebar] and [ChatComponent] *)

Module Client.
Import Js Api Session.

(** The handlers [App] passes down; the two versions of App.js give two
    instances. *)
Record Handlers := {
  refresh : axios (list Chat) -> Session.State -> Session.State * list Event;
  handleChatUpdate :
    axios unit -> axios (list Chat) -> option str -> Updates ->
    Session.State -> Session.State * list Event * settled unit;
  handleChatDelete :
    axios unit -> axios (list Chat) -> option str ->
    Session.State -> Session.State * list Event * settled unit
}.

Definition appJs : Handlers :=
  {| refresh := App.fetchChatHistory;
     handleChatUpdate := App.handleChatUpdate;
     handleChatDelete := App.handleChatDelete |}.

Definition appService : Handlers :=
  {| refresh := AppService.loadChatHistory;
     handleChatUpdate := AppService.handleChatUpdate;
     handleChatDelete := AppService.handleChatDelete |}.

Record State := {
  app : Session.State;
  sidebar : Sidebar.State;
  chat : ChatComponent.State
}.

Definition initial : State :=
  {| app := Session.initial; sidebar := Sidebar.initial;
     chat := ChatComponent.initial |}.

(** A handler of the chat form that touches nothing else. *)
Definition inChat (f : ChatComponent.State -> ChatComponent.State) (s : State)
    : State :=
  {| app := app s; sidebar := sidebar s; chat := f (chat s) |}.

Definition inSidebar (f : Sidebar.State -> Sidebar.State) (s : State) : State :=
  {| app := app s; sidebar := f (sidebar s); chat := chat s |}.

(** The chat form's effect depends on [currentChat]: it runs again when
    the value changed.  A handler that can only clear [currentChat] changes
    it exactly when it goes from a chat to [null]. *)
Definition currentChatEffect (before after : option Chat)
    (s : ChatComponent.State) : ChatComponent.State :=
  match before, after with
  | Some _, None => ChatComponent.useEffect_currentChat None s
  | _, _ => s
  end.

(** The world the sidebar's callbacks act on: [App]'s state and the calls
    made so far. *)
Definition World : Type := Session.State * list Event.

Definition asCallback {A : Type}
    (f : Session.State -> Session.State * list Event * A) (w : World)
    : World * A :=
  let '(a, calls, outcome) := f (fst w) in ((a, snd w ++ calls), outcome).

(** Clicking a chat of the history in the sidebar.  The chat clicked is
    taken to be another object than the one held as [currentChat], so the
    effect runs. *)
Definition handleSelectChat (selected : Chat) (s : State) : State :=
  let a := Session.handleSelectChat selected (app s) in
  {| app := a; sidebar := sidebar s;
     chat := ChatComponent.useEffect_currentChat (currentChat a) (chat s) |}.

(** "New chat" in the sidebar. *)
Definition handleNewChat (s : State) : State :=
  let a := Session.handleNewChat (app s) in
  {| app := a; sidebar := sidebar s;
     chat := currentChatEffect (currentChat (app s)) (currentChat a) (chat s) |}.

(** Submitting the chat form: [onChatComplete] is [addToHistory], which
    refreshes the history. *)
Definition handleSubmit (h : Handlers)
    (createChat : ChatComponent.ChatData -> settled ChatComponent.Response)
    (get : axios (list Chat)) (s : State)
    : State * list ChatComponent.ChatData * list Event :=
  let (c, calls) := ChatComponent.handleSubmit true createChat (chat s) in
  let (a, appCalls) :=
    if existsb (fun e => match e with
                         | ChatComponent.OnChatComplete _ => true
                         | ChatComponent.CreateChat _ => false
                         end) calls
    then refresh h get (app s) else (app s, []) in
  ({| app := a; sidebar := sidebar s; chat := c |},
   ChatComponent.storeCalls calls, appCalls).

(** Confirming the delete modal. *)
Definition handleConfirmDelete (h : Handlers)
    (delete : axios unit) (get : axios (list Chat)) (s : State)
    : State * list Event :=
  let '(sb, (a, calls)) :=
    Sidebar.handleConfirmDelete
      (Some (fun chatId => asCallback (handleChatDelete h delete get chatId)))
      (sidebar s) (app s, []) in
  ({| app := a; sidebar := sb;
      chat := currentChatEffect (currentChat (app s)) (currentChat a) (chat s) |},
   calls).

(** Saving a rename. *)
Definition handleSaveRename (h : Handlers)
    (patch : axios unit) (get : axios (list Chat)) (chatId : option str)
    (s : State) : State * list Event :=
  let '(sb, (a, calls)) :=
    Sidebar.handleSaveRename
      (Some (fun chatId updates =>
               asCallback (handleChatUpdate h patch get chatId updates)))
      chatId (sidebar s) (app s, []) in
  ({| app := a; sidebar := sb; chat := chat s |}, calls).

(** Pin or unpin in a chat's menu. *)
Definition handlePin (h : Handlers)
    (patch : axios unit) (get : axios (list Chat)) (pinnedChat : Chat)
    (s : State) : State * list Event :=
  let '(sb, (a, calls)) :=
    Sidebar.handlePin
      (Some (fun chatId updates =>
               asCallback (handleChatUpdate h patch get chatId updates)))
      pinnedChat (sidebar s) (app s, []) in
  ({| app := a; sidebar := sb; chat := chat s |}, calls).

End Client.

(** ** Vocabulary of the properties and the scenarios they are tried on *)

Definition blank (s : Js.str) : bool := forallb Js.isWhiteSpace s.

(** The state in which [handleSubmit] awaits the store. *)
Definition awaiting (c : ChatComponent.State) : ChatComponent.State :=
  ChatComponent.setMessages (fun prev => prev ++ [ChatComponent.userMessage c])
    (ChatComponent.setLoading true
       (ChatComponent.setFieldErrors ChatComponent.noFieldErrors
          (ChatComponent.setError []
             (ChatComponent.setFieldErrors ChatComponent.noFieldErrors c)))).

(** Validation passes when the message is not blank and, before the
    initial submission, the name is not blank either. *)
Definition valid (c : ChatComponent.State) : bool :=
  (ChatComponent.hasInitialSubmission c || negb (blank (ChatComponent.name c)))
  && negb (blank (ChatComponent.message c)).

(** The error axios raises when the request exceeds the 30 s timeout of
    the API client. *)
Definition timeoutError : Api.AxiosError :=
  {| Api.response := None;
     Api.code := Some (js "ECONNABORTED");
     Api.message := js "timeout of 30000ms exceeded";
     Api.request := true |}.

(** A new chat with the name and the message filled in. *)
Definition janeAsks : ChatComponent.State :=
  ChatComponent.onChangeMessage (js "I have a fever")
    (ChatComponent.onChangeName (js "Jane") ChatComponent.initial).

(** A success response that carries a reply and no identifier. *)
Definition replyWithoutId : ChatComponent.Response :=
  {| ChatComponent.ai_response := Some (js "Rest and drink water.");
     ChatComponent.id := None;
     ChatComponent._id := None |}.

(** A success response that names the session. *)
Definition replyWithId : ChatComponent.Response :=
  {| ChatComponent.ai_response := Some (js "Rest and drink water.");
     ChatComponent.id := Some (js "s1");
     ChatComponent._id := None |}.

(** The session-aware form filled in with name "Jane" and problem "fever". *)
Definition janeFever : ChatComponent.State :=
  ChatComponent.onChangeProblem (js "fever")
    (ChatComponent.onChangeName (js "Jane") ChatComponent.initial).

(** The earlier form filled in the same way. *)
Definition janeFeverClientSide : ClientSide.State :=
  {| ClientSide.name := js "Jane"; ClientSide.problem := js "fever";
     ClientSide.message := []; ClientSide.response := Some [];
     ClientSide.loading := false; ClientSide.error := [];
     ClientSide.fieldErrors := ClientSide.noFieldErrors;
     ClientSide.messages := [] |}.

(** One follow-up: the text typed into the message field, and what the
    store answers to the request. *)
Record Turn := {
  typed : Js.str;
  answer : ChatComponent.ChatData -> Js.settled ChatComponent.Response
}.

(** Follow-ups made one after the other; returns the final state and the
    requests sent to the store, in order. *)
Fixpoint followUps (onChatComplete : bool) (turns : list Turn)
    (c : ChatComponent.State) : ChatComponent.State * list ChatComponent.ChatData :=
  match turns with
  | [] => (c, [])
  | turn :: rest =>
      let (s, calls) :=
        ChatComponent.handleSubmit onChatComplete (answer turn)
          (ChatComponent.onChangeMessage (typed turn) c) in
      let (s', more) := followUps onChatComplete rest s in
      (s', ChatComponent.storeCalls calls ++ more)
  end.

(** A response without a usable identifier: [id] and [_id] are absent (or
    empty). *)
Definition namesNoSession (response : ChatComponent.Response) : Prop :=
  Js.truthyO (ChatComponent.id response) = false /\
  Js.truthyO (ChatComponent._id response) = false.

(** An answer that never names a session: a failure, or a success without
    identifier. *)
Definition neverNamesSession
    (answer : ChatComponent.ChatData -> Js.settled ChatComponent.Response) : Prop :=
  forall request,
    match answer request with
    | Js.Resolved response => namesNoSession response
    | Js.Rejected _ => True
    end.

(** The session "s1" as the history lists it. *)
Definition sessionS1 : Session.Chat :=
  {| Session.id := Some (js "s1"); Session._id := None;
     Session.patient_name := Some (js "Jane");
     Session.problem := Some (js "I have a fever");
     Session.additional_info := None;
     Session.ai_response := Some (js "Rest and drink water.");
     Session.messages :=
       Some [{| Session.role := js "user";
                Session.content :=
                  js "Patient Name: Jane" ++ [10] ++ js "Message: I have a fever" |};
             {| Session.role := js "assistant";
                Session.content := js "Rest and drink water." |}];
     Session.pinned := false |}.

(** A conversation started in the form: "Jane" submits a first message, the
    store creates session "s1" and the refreshed history lists it. *)
Definition startedInForm (h : Client.Handlers) : Client.State :=
  fst (fst (Client.handleSubmit h (fun _ => Js.Resolved replyWithId)
              (Api.Fulfilled [sessionS1])
              (Client.inChat (ChatComponent.onChangeMessage (js "I have a fever"))
                 (Client.inChat (ChatComponent.onChangeName (js "Jane"))
                    Client.initial)))).

(** The test of the timeout branch of the service:
    [error.code === 'ECONNABORTED' || error.message.includes('timeout')]. *)
Definition isTimeout (error : Api.AxiosError) : bool :=
  Js.eqbO (Api.code error) (Some (js "ECONNABORTED"))
  || Js.includes (js "timeout") (Api.message error).

Definition timedOut : Js.str :=
  js "Request timed out. Please check your connection and try again.".

Definition unableToConnect : Js.str :=
  js "Unable to connect to the server. Please check if the backend is running.".

(** An error response whose body carries a detail. *)
Definition sessionNotFound : Api.AxiosError :=
  {| Api.response := Some (Api.Data (Some (Js.JString (js "Session not found"))));
     Api.code := Some (js "ERR_BAD_REQUEST");
     Api.message := js "Request failed with status code 404";
     Api.request := true |}.

(** The server rejected the request body: status 422 with a list of one
    validation error as [detail]. *)
Definition validationError : Api.AxiosError :=
  {| Api.response := Some (Api.Data (Some (Js.JArray [Js.JObject])));
     Api.code := Some (js "ERR_BAD_REQUEST");
     Api.message := js "Request failed with status code 422";
     Api.request := true |}.

(** An error response whose [detail] is the empty array. *)
Definition emptyDetailError : Api.AxiosError :=
  {| Api.response := Some (Api.Data (Some (Js.JArray [])));
     Api.code := Some (js "ERR_BAD_REQUEST");
     Api.message := js "Request failed with status code 400";
     Api.request := true |}.

(** The server answered with status 500 and the body [null]. *)
Definition nullBodyError : Api.AxiosError :=
  {| Api.response := Some Api.NullBody;
     Api.code := Some (js "ERR_BAD_RESPONSE");
     Api.message := js "Request failed with status code 500";
     Api.request := true |}.

(** No answer reached the client. *)
Definition networkError : Api.AxiosError :=
  {| Api.response := None;
     Api.code := Some (js "ERR_NETWORK");
     Api.message := js "Network Error";
     Api.request := true |}.

(** The requests to the store among the calls of an [App] handler, and the
    alerts among them. *)
Definition storeRequests (calls : list Session.Event) : list Session.Event :=
  filter (fun e => match e with Session.Alert _ => false | _ => true end) calls.

Definition alerts (calls : list Session.Event) : list Session.Event :=
  filter (fun e => match e with Session.Alert _ => true | _ => false end) calls.

(** Whether an HTTP call failed with a response whose body is [null]. *)
Definition hasNullBody {A : Type} (outcome : Api.axios A) : bool :=
  match outcome with
  | Api.Failed error =>
      match Api.response error with
      | Some Api.NullBody => true
      | _ => false
      end
  | Api.Fulfilled _ => false
  end.

(** Whether a promise was fulfilled. *)
Definition resolved {A : Type} (outcome : Js.settled A) : bool :=
  match outcome with Js.Resolved _ => true | Js.Rejected _ => false end.

(** A success response that names another session, "s2". *)
Definition replyForS2 : ChatComponent.Response :=
  {| ChatComponent.ai_response := Some (js "Take an antihistamine.");
     ChatComponent.id := Some (js "s2");
     ChatComponent._id := None |}.

(** * Properties *)

(** ** Blank strings

    A field is blank when it is empty or holds only white space; that is
    what the guards [!field.trim()] of the handlers test. *)

Lemma trimStart_nil (s : Js.str) : Js.trimStart s = [] <-> blank s = true.
Proof.
  unfold blank. induction s as [|c r IH]; simpl.
  - tauto.
  - destruct (Js.isWhiteSpace c); simpl.
    + exact IH.
    + split; discriminate.
Qed.

Lemma blank_trimStart (s : Js.str) : blank (Js.trimStart s) = blank s.
Proof.
  unfold blank. induction s as [|c r IH]; simpl; trivial.
  destruct (Js.isWhiteSpace c) eqn:E; simpl; trivial.
  now rewrite E.
Qed.

Lemma blank_rev (s : Js.str) : blank (rev s) = blank s.
Proof.
  unfold blank. induction s as [|c r IH]; simpl; trivial.
  rewrite forallb_app, IH. simpl. rewrite andb_true_r. apply andb_comm.
Qed.

Lemma rev_nil_iff {A} (l : list A) : rev l = [] <-> l = [].
Proof.
  split; intros H.
  - rewrite <- (rev_involutive l), H. reflexivity.
  - now subst.
Qed.

Lemma trim_nil (s : Js.str) : Js.trim s = [] <-> blank s = true.
Proof.
  unfold Js.trim, Js.trimEnd.
  split; intros H.
  - apply rev_nil_iff, trimStart_nil in H.
    now rewrite blank_rev, blank_trimStart in H.
  - apply rev_nil_iff, trimStart_nil.
    now rewrite blank_rev, blank_trimStart.
Qed.

(** The guard [!s.trim()] holds exactly for blank strings. *)
Lemma truthy_trim (s : Js.str) : Js.truthy (Js.trim s) = negb (blank s).
Proof.
  destruct (blank s) eqn:B; simpl.
  - apply trim_nil in B. now rewrite B.
  - destruct (Js.trim s) eqn:T; trivial.
    apply trim_nil in T. congruence.
Qed.

Lemma eqb_refl (s : Js.str) : Js.eqb s s = true.
Proof.
  induction s as [|c r IH]; simpl; trivial. now rewrite N.eqb_refl.
Qed.

Lemma eqb_eq (a b : Js.str) : Js.eqb a b = true <-> a = b.
Proof.
  revert b. induction a as [|x a IH]; intros [|y b]; simpl; try (split; congruence).
  split.
  - intros H. apply andb_true_iff in H as [H1 H2].
    apply N.eqb_eq in H1. apply IH in H2. congruence.
  - intros E. injection E as -> ->.
    apply andb_true_iff. split; [apply N.eqb_refl | now apply IH].
Qed.

(** ** Validation in the chat form *)

Lemma submit_blank_name (c : ChatComponent.State) :
  ChatComponent.hasInitialSubmission c = false ->
  blank (ChatComponent.name c) = true ->
  ChatComponent.submit c =
  ChatComponent.Returned
    (ChatComponent.setFieldErrors
       {| ChatComponent.name_error := true; ChatComponent.message_error := false |}
       (ChatComponent.setError (js "Please enter your name")
          (ChatComponent.setFieldErrors ChatComponent.noFieldErrors c))).
Proof.
  intros Hfirst Hblank. unfold ChatComponent.submit.
  now rewrite Hfirst, truthy_trim, Hblank.
Qed.

Lemma clientSide_submit_blank_name (c : ClientSide.State) :
  blank (ClientSide.name c) = true ->
  exists s,
    ClientSide.submit c = ClientSide.Returned s /\
    ClientSide.error s = js "Please enter your name" /\
    ClientSide.name_error (ClientSide.fieldErrors s) = true /\
    ClientSide.messages s = ClientSide.messages c.
Proof.
  intros Hblank. unfold ClientSide.submit.
  rewrite truthy_trim, Hblank. simpl. eexists. split; [reflexivity|].
  simpl. auto.
Qed.

(** C2. A submission made before any initial submission, with a blank
    name, never calls the store: [handleSubmit] returns at the name check,
    before the request object is built, with the error "Please enter your
    name" on the name field.  This holds in the session-aware form and in
    the earlier form, whatever the store would have answered. *)
Theorem blank_name_blocks_first_submission :
  forall (onChatComplete : bool)
         (createChat : ChatComponent.ChatData -> Js.settled ChatComponent.Response)
         (createChat' : ClientSide.ChatData -> Js.settled ClientSide.Response)
         (c : ChatComponent.State) (c' : ClientSide.State),
    ChatComponent.hasInitialSubmission c = false ->
    blank (ChatComponent.name c) = true ->
    blank (ClientSide.name c') = true ->
    (exists s,
        ChatComponent.submit c = ChatComponent.Returned s /\
        ChatComponent.handleSubmit onChatComplete createChat c = (s, []) /\
        ChatComponent.error s = js "Please enter your name" /\
        ChatComponent.name_error (ChatComponent.fieldErrors s) = true /\
        ChatComponent.messages s = ChatComponent.messages c /\
        ChatComponent.loading s = ChatComponent.loading c /\
        ChatComponent.hasInitialSubmission s = false /\
        ChatComponent.currentSessionId s = ChatComponent.currentSessionId c) /\
    (exists s',
        ClientSide.submit c' = ClientSide.Returned s' /\
        ClientSide.handleSubmit onChatComplete createChat' c' = (s', []) /\
        ClientSide.error s' = js "Please enter your name" /\
        ClientSide.name_error (ClientSide.fieldErrors s') = true /\
        ClientSide.messages s' = ClientSide.messages c').
Proof.
  intros onCC createChat createChat' c c' Hfirst Hname Hname'. split.
  - eexists. split; [now apply submit_blank_name|].
    unfold ChatComponent.handleSubmit. rewrite submit_blank_name by assumption.
    simpl. rewrite Hfirst. repeat split.
  - destruct (clientSide_submit_blank_name c' Hname') as (s' & Hs & He & Hf & Hm).
    exists s'. unfold ClientSide.handleSubmit. rewrite Hs. auto.
Qed.

Lemma blank_name_blocks_first_submission_witness :
  exists s s',
    ChatComponent.handleSubmit true (fun _ => Js.Rejected [])
      (ChatComponent.setName (js "  ") ChatComponent.initial) = (s, []) /\
    ChatComponent.error s = js "Please enter your name" /\
    ClientSide.handleSubmit true (fun _ => Js.Rejected []) ClientSide.initial = (s', []) /\
    ClientSide.error s' = js "Please enter your name".
Proof.
  destruct (blank_name_blocks_first_submission true
              (fun _ => Js.Rejected []) (fun _ => Js.Rejected [])
              (ChatComponent.setName (js "  ") ChatComponent.initial)
              ClientSide.initial eq_refl eq_refl eq_refl)
    as [(s & _ & Hs & He & _) (s' & _ & Hs' & He' & _)].
  exists s, s'. auto.
Defined.

(** C5. A submission from an active session with a blank message is
    blocked before any store call, with the error "Please enter your
    question or message" on the message field; the transcript, the session
    id, the initial-submission flag and the stored patient info are as
    before. *)
Theorem blank_message_blocks_follow_up :
  forall (onChatComplete : bool)
         (createChat : ChatComponent.ChatData -> Js.settled ChatComponent.Response)
         (c : ChatComponent.State),
    ChatComponent.hasInitialSubmission c = true ->
    blank (ChatComponent.message c) = true ->
    exists s,
      ChatComponent.submit c = ChatComponent.Returned s /\
      ChatComponent.handleSubmit onChatComplete createChat c = (s, []) /\
      ChatComponent.error s = js "Please enter your question or message" /\
      ChatComponent.message_error (ChatComponent.fieldErrors s) = true /\
      ChatComponent.messages s = ChatComponent.messages c /\
      ChatComponent.currentSessionId s = ChatComponent.currentSessionId c /\
      ChatComponent.hasInitialSubmission s = true /\
      ChatComponent.initialPatientInfo s = ChatComponent.initialPatientInfo c /\
      ChatComponent.loading s = ChatComponent.loading c.
Proof.
  intros onCC createChat c Hactive Hblank.
  unfold ChatComponent.handleSubmit, ChatComponent.submit.
  rewrite Hactive. cbn [negb andb]. rewrite truthy_trim, Hblank. simpl.
  eexists. split; [reflexivity|]. simpl. rewrite Hactive. repeat split.
Qed.

Lemma blank_message_blocks_follow_up_witness :
  exists s,
    ChatComponent.handleSubmit true (fun _ => Js.Rejected [])
      (ChatComponent.setHasInitialSubmission true
         (ChatComponent.setCurrentSessionId (Some (js "s1")) ChatComponent.initial))
    = (s, []) /\
    ChatComponent.error s = js "Please enter your question or message" /\
    ChatComponent.currentSessionId s = Some (js "s1").
Proof.
  destruct (blank_message_blocks_follow_up true (fun _ => Js.Rejected [])
              (ChatComponent.setHasInitialSubmission true
                 (ChatComponent.setCurrentSessionId (Some (js "s1"))
                    ChatComponent.initial))
              eq_refl eq_refl)
    as (s & _ & Hs & He & _ & _ & Hid & _).
  exists s. auto.
Defined.

(** ** Submissions that reach the store *)

Lemma submit_valid (c : ChatComponent.State) :
  valid c = true ->
  ChatComponent.submit c = ChatComponent.Awaiting (awaiting c) (ChatComponent.chatData c).
Proof.
  unfold valid, ChatComponent.submit. rewrite !truthy_trim.
  destruct (ChatComponent.hasInitialSubmission c),
           (blank (ChatComponent.name c)),
           (blank (ChatComponent.message c)); simpl; intros H;
    try discriminate; reflexivity.
Qed.

Lemma submit_invalid (c : ChatComponent.State) :
  valid c = false -> exists s, ChatComponent.submit c = ChatComponent.Returned s.
Proof.
  unfold valid, ChatComponent.submit. rewrite !truthy_trim.
  destruct (ChatComponent.hasInitialSubmission c),
           (blank (ChatComponent.name c)),
           (blank (ChatComponent.message c)); simpl; intros H;
    try discriminate; eexists; reflexivity.
Qed.

Lemma submit_awaiting (c s : ChatComponent.State) (req : ChatComponent.ChatData) :
  ChatComponent.submit c = ChatComponent.Awaiting s req ->
  valid c = true /\ s = awaiting c /\ req = ChatComponent.chatData c.
Proof.
  intros H. destruct (valid c) eqn:V.
  - rewrite (submit_valid c V) in H. injection H as <- <-. auto.
  - destruct (submit_invalid c V) as [s' Hs']. congruence.
Qed.

Lemma or_truthy (a b : Js.str) : Js.truthy b = true -> Js.truthy (Js.or a b) = true.
Proof.
  intros Hb. unfold Js.or. destruct (Js.truthy a) eqn:Ha; assumption.
Qed.

(** C3. When the store call of a submission fails, the user turn appended
    before the call is still the last entry of the transcript and no
    assistant turn follows it, a non-empty error message is set, and loading
    is false again; the session id and the initial-submission flag are as
    before.  The transcript is left alone whatever state the failure finds
    the component in.  A timeout is such a failure, with the message
    "Request timed out. Please check your connection and try again." *)
Theorem failed_submission_keeps_user_turn :
  forall (onChatComplete : bool)
         (createChat : ChatComponent.ChatData -> Js.settled ChatComponent.Response)
         (c s : ChatComponent.State) (request : ChatComponent.ChatData)
         (errMessage : Js.str),
    ChatComponent.submit c = ChatComponent.Awaiting s request ->
    createChat request = Js.Rejected errMessage ->
    ChatComponent.messages s =
      ChatComponent.messages c ++ [ChatComponent.userMessage c] /\
    ChatComponent.type (ChatComponent.userMessage c) = ChatComponent.user /\
    (exists s',
        ChatComponent.handleSubmit onChatComplete createChat c =
          (s', [ChatComponent.CreateChat request]) /\
        ChatComponent.messages s' =
          ChatComponent.messages c ++ [ChatComponent.userMessage c] /\
        ChatComponent.error s' = Js.or errMessage (js "An unexpected error occurred") /\
        Js.truthy (ChatComponent.error s') = true /\
        ChatComponent.loading s' = false /\
        ChatComponent.hasInitialSubmission s' = ChatComponent.hasInitialSubmission c /\
        ChatComponent.currentSessionId s' = ChatComponent.currentSessionId c /\
        ChatComponent.message s' = ChatComponent.message c) /\
    (forall now : ChatComponent.State,
        let after := fst (ChatComponent.settle onChatComplete c
                            (Js.Rejected errMessage) now) in
        ChatComponent.messages after = ChatComponent.messages now /\
        ChatComponent.loading after = false /\
        Js.truthy (ChatComponent.error after) = true) /\
    Api.createChat (A := ChatComponent.Response) (Api.Failed timeoutError) =
      Js.Rejected (js "Request timed out. Please check your connection and try again.").
Proof.
  intros onCC createChat c s request errMessage Hsubmit Hfail.
  destruct (submit_awaiting c s request Hsubmit) as (_ & -> & ->).
  split; [reflexivity|]. split; [reflexivity|]. split.
  - unfold ChatComponent.handleSubmit. rewrite Hsubmit, Hfail. simpl.
    eexists. split; [reflexivity|]. simpl.
    repeat split. now apply or_truthy.
  - split; [|reflexivity].
    intros now. simpl. repeat split. now apply or_truthy.
Qed.

Lemma failed_submission_keeps_user_turn_witness :
  let c := ChatComponent.setMessage (js "I have a fever")
             (ChatComponent.setName (js "Jane") ChatComponent.initial) in
  let createChat := fun _ : ChatComponent.ChatData =>
                      Api.createChat (Api.Failed timeoutError) in
  exists s',
    ChatComponent.handleSubmit true createChat c =
      (s', [ChatComponent.CreateChat (ChatComponent.chatData c)]) /\
    ChatComponent.messages s' =
      [{| ChatComponent.type := ChatComponent.user;
          ChatComponent.content := Some (js "I have a fever");
          ChatComponent.sender := Some (js "Jane");
          ChatComponent.additional := None |}] /\
    ChatComponent.loading s' = false.
Proof.
  intros c createChat.
  destruct (failed_submission_keeps_user_turn true createChat c (awaiting c)
              (ChatComponent.chatData c)
              (js "Request timed out. Please check your connection and try again.")
              eq_refl eq_refl)
    as (_ & _ & (s' & Hs & Hm & _ & _ & Hl & _) & _).
  exists s'. split; [exact Hs|]. split; [exact Hm|exact Hl].
Defined.

(** The earlier form appends nothing before the call, so a failed
    submission leaves its transcript as it was. *)
Lemma clientSide_failed_submission
    (onChatComplete : bool)
    (createChat : ClientSide.ChatData -> Js.settled ClientSide.Response)
    (c s : ClientSide.State) (request : ClientSide.ChatData) (errMessage : Js.str) :
  ClientSide.submit c = ClientSide.Awaiting s request ->
  createChat request = Js.Rejected errMessage ->
  let s' := fst (ClientSide.handleSubmit onChatComplete createChat c) in
  ClientSide.messages s' = ClientSide.messages c /\
  ClientSide.loading s' = false /\
  Js.truthy (ClientSide.error s') = true.
Proof.
  intros Hsubmit Hfail. unfold ClientSide.handleSubmit. rewrite Hsubmit, Hfail.
  unfold ClientSide.submit in Hsubmit.
  destruct (negb (Js.truthy (Js.trim (ClientSide.name c)))); [discriminate|].
  destruct (negb (Js.truthy (Js.trim (ClientSide.problem c)))); [discriminate|].
  injection Hsubmit as <- <-. simpl. repeat split. now apply or_truthy.
Qed.

(** C6. When the store answers with success and the assistant content is
    missing or empty, an assistant turn with the empty string is appended
    after the user turn, like any other reply. *)
Theorem empty_reply_is_appended :
  forall (onChatComplete : bool)
         (createChat : ChatComponent.ChatData -> Js.settled ChatComponent.Response)
         (c s : ChatComponent.State) (request : ChatComponent.ChatData)
         (response : ChatComponent.Response),
    ChatComponent.submit c = ChatComponent.Awaiting s request ->
    createChat request = Js.Resolved response ->
    Js.truthyO (ChatComponent.ai_response response) = false ->
    let s' := fst (ChatComponent.handleSubmit onChatComplete createChat c) in
    ChatComponent.messages s' =
      ChatComponent.messages c ++
      [ChatComponent.userMessage c;
       {| ChatComponent.type := ChatComponent.ai;
          ChatComponent.content := Some [];
          ChatComponent.sender := None;
          ChatComponent.additional := None |}] /\
    ChatComponent.loading s' = false /\
    ChatComponent.error s' = [].
Proof.
  intros onCC createChat c s request response Hsubmit Hok Hempty.
  destruct (submit_awaiting c s request Hsubmit) as (_ & -> & ->).
  unfold ChatComponent.handleSubmit. rewrite Hsubmit, Hok.
  assert (Hai : Js.orDefault (ChatComponent.ai_response response) [] = []).
  { destruct (ChatComponent.ai_response response) as [[|x r]|]; simpl in *;
      trivial; discriminate. }
  unfold ChatComponent.settle. rewrite Hai.
  destruct (ChatComponent.hasInitialSubmission c);
    cbn [negb];
    [destruct (Js.truthyO _ && negb _)|];
    simpl; rewrite <- app_assoc; repeat split.
Qed.

Lemma empty_reply_is_appended_witness :
  let c := ChatComponent.setMessage (js "I have a fever")
             (ChatComponent.setName (js "Jane") ChatComponent.initial) in
  let createChat := fun _ : ChatComponent.ChatData =>
    Js.Resolved {| ChatComponent.ai_response := None;
                   ChatComponent.id := Some (js "s1");
                   ChatComponent._id := None |} in
  ChatComponent.messages (fst (ChatComponent.handleSubmit true createChat c)) =
    [{| ChatComponent.type := ChatComponent.user;
        ChatComponent.content := Some (js "I have a fever");
        ChatComponent.sender := Some (js "Jane");
        ChatComponent.additional := None |};
     {| ChatComponent.type := ChatComponent.ai;
        ChatComponent.content := Some [];
        ChatComponent.sender := None;
        ChatComponent.additional := None |}].
Proof.
  intros c createChat.
  exact (proj1 (empty_reply_is_appended true createChat c (awaiting c)
                  (ChatComponent.chatData c) _ eq_refl eq_refl eq_refl)).
Defined.

(** ** The request of a follow-up *)

(** Counterexample to C1 as stated, on two conversations.  In the first,
    the first submission is answered without an identifier: the form is then
    in its active state with a null session id, and the request of the
    follow-up has no [session_id].  In the second, the session id "s1" is
    bound, and the problem entered at the start is the very text the form
    keeps as placeholder for no problem: the first request carries it, the
    follow-up carries null. *)
Lemma follow_up_not_as_stated :
  (let s1 := fst (ChatComponent.handleSubmit true
                    (fun _ => Js.Resolved replyWithoutId) janeAsks) in
   ChatComponent.hasInitialSubmission s1 = true /\
   ChatComponent.currentSessionId s1 = None /\
   ChatComponent.storeCalls
     (snd (ChatComponent.handleSubmit true (fun _ => Js.Resolved replyWithId)
             (ChatComponent.onChangeMessage (js "And now?") s1))) =
   [{| ChatComponent.chat_name := js "Jane";
       ChatComponent.chat_problem := None;
       ChatComponent.chat_message := js "And now?";
       ChatComponent.session_id := None |}]) /\
  (let first := ChatComponent.handleSubmit true (fun _ => Js.Resolved replyWithId)
                  (ChatComponent.onChangeProblem
                     (js "No specific disease mentioned") janeAsks) in
   ChatComponent.storeCalls (snd first) =
   [{| ChatComponent.chat_name := js "Jane";
       ChatComponent.chat_problem := Some (js "No specific disease mentioned");
       ChatComponent.chat_message := js "I have a fever";
       ChatComponent.session_id := None |}] /\
   ChatComponent.storeCalls
     (snd (ChatComponent.handleSubmit true (fun _ => Js.Resolved replyWithId)
             (ChatComponent.onChangeMessage (js "And now?") (fst first)))) =
   [{| ChatComponent.chat_name := js "Jane";
       ChatComponent.chat_problem := None;
       ChatComponent.chat_message := js "And now?";
       ChatComponent.session_id := Some (js "s1") |}]).
Proof.
  vm_compute. repeat split.
Qed.

(** C1, amended.  A submission from the active state that passes
    validation sends one request.  Its name is the name stored at session
    start; its problem is the problem stored at session start, or null when
    the stored problem is the placeholder for none; its message is the
    trimmed message field.  The name and problem fields of the form have no
    part in it.  It carries [session_id] exactly when a non-empty session id
    is bound, and then that id. *)
Theorem follow_up_request :
  forall (onChatComplete : bool)
         (createChat : ChatComponent.ChatData -> Js.settled ChatComponent.Response)
         (c : ChatComponent.State),
    ChatComponent.hasInitialSubmission c = true ->
    blank (ChatComponent.message c) = false ->
    let request := ChatComponent.chatData c in
    let info := ChatComponent.initialPatientInfo c in
    ChatComponent.submit c = ChatComponent.Awaiting (awaiting c) request /\
    ChatComponent.storeCalls
      (snd (ChatComponent.handleSubmit onChatComplete createChat c)) = [request] /\
    ChatComponent.chat_name request = ChatComponent.patient_name info /\
    ChatComponent.chat_problem request =
      (if Js.eqb (ChatComponent.patient_problem info) ChatComponent.noDisease
       then None else Some (ChatComponent.patient_problem info)) /\
    ChatComponent.chat_message request = Js.trim (ChatComponent.message c) /\
    (forall name problem : Js.str,
        ChatComponent.chatData
          (ChatComponent.setProblem problem (ChatComponent.setName name c)) = request) /\
    (forall sid : Js.str,
        ChatComponent.session_id request = Some sid <->
        ChatComponent.currentSessionId c = Some sid /\ sid <> []).
Proof.
  intros onCC createChat c Hactive Hmsg request info.
  assert (V : valid c = true) by (unfold valid; now rewrite Hactive, Hmsg).
  split; [now apply submit_valid|].
  split.
  { unfold ChatComponent.handleSubmit. rewrite (submit_valid c V).
    destruct (createChat (ChatComponent.chatData c)); simpl;
      [destruct onCC|]; reflexivity. }
  subst request info. unfold ChatComponent.chatData. rewrite Hactive. simpl.
  split; [reflexivity|]. split.
  { now destruct (Js.eqb _ ChatComponent.noDisease). }
  split; [reflexivity|]. split.
  { intros name problem. rewrite Hactive. reflexivity. }
  intros sid. destruct (ChatComponent.currentSessionId c) as [[|x r]|]; simpl.
  - split; [discriminate|]. intros [E N]. injection E as <-. now elim N.
  - split.
    + intros E. injection E as <-. split; [reflexivity|discriminate].
    + intros [E _]. exact E.
  - split; [discriminate|]. intros [E _]. discriminate.
Qed.

Lemma follow_up_request_witness :
  let c := ChatComponent.onChangeMessage (js "And now?")
             (fst (ChatComponent.handleSubmit true
                     (fun _ => Js.Resolved replyWithId) janeAsks)) in
  ChatComponent.storeCalls
    (snd (ChatComponent.handleSubmit true (fun _ => Js.Resolved replyWithId) c)) =
  [ChatComponent.chatData c] /\
  ChatComponent.session_id (ChatComponent.chatData c) = Some (js "s1").
Proof.
  intros c.
  destruct (follow_up_request true (fun _ => Js.Resolved replyWithId) c
              eq_refl eq_refl) as (_ & Hcalls & _ & _ & _ & _ & Hsid).
  split; [exact Hcalls|].
  apply Hsid. split; [reflexivity|discriminate].
Defined.

(** What the first submission stores is what it sent: a follow-up repeats
    the name and the problem of the first request, whatever is done to the
    form in between, unless the problem entered was the placeholder text. *)
Lemma follow_up_repeats_first_request
    (onChatComplete : bool)
    (createChat : ChatComponent.ChatData -> Js.settled ChatComponent.Response)
    (c later : ChatComponent.State) (response : ChatComponent.Response) :
  ChatComponent.hasInitialSubmission c = false ->
  valid c = true ->
  createChat (ChatComponent.chatData c) = Js.Resolved response ->
  Js.trim (ChatComponent.problem c) <> ChatComponent.noDisease ->
  ChatComponent.hasInitialSubmission later = true ->
  ChatComponent.initialPatientInfo later =
    ChatComponent.initialPatientInfo
      (fst (ChatComponent.handleSubmit onChatComplete createChat c)) ->
  ChatComponent.chat_name (ChatComponent.chatData later) =
    ChatComponent.chat_name (ChatComponent.chatData c) /\
  ChatComponent.chat_problem (ChatComponent.chatData later) =
    ChatComponent.chat_problem (ChatComponent.chatData c).
Proof.
  intros Hfirst V Hok Hproblem Hactive Hinfo.
  unfold ChatComponent.handleSubmit in Hinfo.
  rewrite (submit_valid c V), Hok in Hinfo.
  unfold ChatComponent.settle in Hinfo. rewrite Hfirst in Hinfo.
  assert (Hstored :
            ChatComponent.initialPatientInfo later =
            {| ChatComponent.patient_name :=
                 Js.or (Js.trim (ChatComponent.name c)) (js "Anonymous");
               ChatComponent.patient_problem :=
                 Js.or (Js.trim (ChatComponent.problem c)) ChatComponent.noDisease |}).
  { rewrite Hinfo. destruct onChatComplete; reflexivity. }
  unfold ChatComponent.chatData. rewrite Hactive, Hfirst, Hstored.
  cbn [ChatComponent.chat_name ChatComponent.chat_problem
       ChatComponent.patient_name ChatComponent.patient_problem].
  split; [reflexivity|].
  unfold Js.or, Js.orNull.
  destruct (Js.trim (ChatComponent.problem c)) as [|x r] eqn:E; simpl Js.truthy; cbv iota.
  - now rewrite eqb_refl.
  - destruct (Js.eqb (x :: r) ChatComponent.noDisease) eqn:Q; [|reflexivity].
    apply eqb_eq in Q. congruence.
Qed.

(** ** Scenario A: a new chat with a name, a problem and no message *)

(** Counterexample to C4 as stated.  The session-aware form, the one that
    has an active state and a session id, requires the message: with an
    empty message the submission is blocked and nothing changes state.  The
    earlier form, the one whose required field is the problem, accepts the
    submission, but it ends with an empty form that again asks for a name:
    it has no active state. *)
Lemma scenario_A_binds_no_session :
  let ok := fun _ : ChatComponent.ChatData => Js.Resolved replyWithId in
  let ok' := fun _ : ClientSide.ChatData =>
    Js.Resolved {| ClientSide.ai_response := Some (js "Rest and drink water.");
                   ClientSide.id := Some (js "s1") |} in
  (let (s, calls) := ChatComponent.handleSubmit true ok janeFever in
   calls = [] /\
   ChatComponent.hasInitialSubmission s = false /\
   ChatComponent.currentSessionId s = None /\
   ChatComponent.messages s = [] /\
   ChatComponent.error s = js "Please describe your medical issue or symptoms") /\
  (let s' := fst (ClientSide.handleSubmit true ok' janeFeverClientSide) in
   ClientSide.name s' = [] /\
   ClientSide.error
     (fst (ClientSide.handleSubmit true ok'
             {| ClientSide.name := ClientSide.name s';
                ClientSide.problem := ClientSide.problem s';
                ClientSide.message := js "And now?";
                ClientSide.response := ClientSide.response s';
                ClientSide.loading := ClientSide.loading s';
                ClientSide.error := ClientSide.error s';
                ClientSide.fieldErrors := ClientSide.fieldErrors s';
                ClientSide.messages := ClientSide.messages s' |}))
   = js "Please enter your name").
Proof.
  vm_compute. repeat split.
Qed.

(** C4, amended.  With name "Jane", problem "fever" and an empty message:
    the earlier form, whose required field is the problem, sends the request
    with a null message and on success appends the user turn and the
    returned assistant turn and clears its fields; it keeps no session.  The
    session-aware form requires the message: once a non-blank message is
    also entered and the store call succeeds, the user turn and the returned
    assistant turn are appended and the state becomes active, with the
    session id bound from the response ([id], else [_id], else null) and
    "Jane" and "fever" stored as the patient info. *)
Theorem scenario_A_by_form :
  forall (onChatComplete : bool) (message : Js.str)
         (response : ChatComponent.Response) (response' : ClientSide.Response),
    blank message = false ->
    (exists s' calls,
        ClientSide.handleSubmit onChatComplete (fun _ => Js.Resolved response')
          janeFeverClientSide =
          (s', ClientSide.CreateChat
                 {| ClientSide.chat_name := js "Jane";
                    ClientSide.chat_problem := js "fever";
                    ClientSide.chat_message := None |} :: calls) /\
        ClientSide.storeCalls calls = [] /\
        (exists turn,
            ClientSide.messages s' =
              [turn; {| ClientSide.type := ClientSide.ai;
                        ClientSide.content := ClientSide.ai_response response';
                        ClientSide.sender := None;
                        ClientSide.additional := None |}] /\
            ClientSide.type turn = ClientSide.user) /\
        ClientSide.name s' = [] /\ ClientSide.problem s' = [] /\
        ClientSide.loading s' = false) /\
    (let c := ChatComponent.onChangeMessage message janeFever in
     exists s calls,
       ChatComponent.handleSubmit onChatComplete (fun _ => Js.Resolved response) c =
         (s, ChatComponent.CreateChat
               {| ChatComponent.chat_name := js "Jane";
                  ChatComponent.chat_problem := Some (js "fever");
                  ChatComponent.chat_message := Js.trim message;
                  ChatComponent.session_id := None |} :: calls) /\
       ChatComponent.storeCalls calls = [] /\
       ChatComponent.messages s =
         [{| ChatComponent.type := ChatComponent.user;
             ChatComponent.content := Some (Js.trim message);
             ChatComponent.sender := Some (js "Jane");
             ChatComponent.additional := None |};
          {| ChatComponent.type := ChatComponent.ai;
             ChatComponent.content :=
               Some (Js.orDefault (ChatComponent.ai_response response) []);
             ChatComponent.sender := None;
             ChatComponent.additional := None |}] /\
       ChatComponent.hasInitialSubmission s = true /\
       ChatComponent.currentSessionId s =
         Js.orO (Js.orO (ChatComponent.id response) (ChatComponent._id response)) None /\
       ChatComponent.initialPatientInfo s =
         {| ChatComponent.patient_name := js "Jane";
            ChatComponent.patient_problem := js "fever" |} /\
       ChatComponent.loading s = false).
Proof.
  intros onCC message response response' Hmsg. split.
  - destruct onCC; do 2 eexists;
      (split; [reflexivity|]); (split; [reflexivity|]);
      (split; [eexists; split; reflexivity|]); repeat split.
  - intros c.
    assert (V : valid c = true) by (unfold valid; simpl; now rewrite Hmsg).
    unfold ChatComponent.handleSubmit. rewrite (submit_valid c V).
    destruct onCC; do 2 eexists;
      (split; [reflexivity|]); (split; [reflexivity|]); repeat split.
Qed.

Lemma scenario_A_by_form_witness :
  exists s calls,
    ChatComponent.handleSubmit true (fun _ => Js.Resolved replyWithId)
      (ChatComponent.onChangeMessage (js "I feel hot") janeFever) = (s, calls) /\
    ChatComponent.hasInitialSubmission s = true /\
    ChatComponent.currentSessionId s = Some (js "s1").
Proof.
  destruct (scenario_A_by_form true (js "I feel hot") replyWithId
              {| ClientSide.ai_response := None; ClientSide.id := None |} eq_refl)
    as (_ & s & calls & Hs & _ & _ & Hactive & Hid & _).
  exists s. eexists. split; [exact Hs|]. split; [exact Hactive|exact Hid].
Defined.

(** ** A conversation whose first reply names no session *)

Lemma no_session_named (response : ChatComponent.Response) :
  namesNoSession response ->
  Js.orO (Js.orO (ChatComponent.id response) (ChatComponent._id response)) None = None.
Proof.
  intros [Hid H_id]. unfold Js.orO. rewrite Hid, H_id. reflexivity.
Qed.

Lemma onChangeMessage_session (v : Js.str) (c : ChatComponent.State) :
  ChatComponent.hasInitialSubmission (ChatComponent.onChangeMessage v c) =
    ChatComponent.hasInitialSubmission c /\
  ChatComponent.currentSessionId (ChatComponent.onChangeMessage v c) =
    ChatComponent.currentSessionId c.
Proof.
  unfold ChatComponent.onChangeMessage.
  destruct (ChatComponent.message_error (ChatComponent.fieldErrors c)); split; reflexivity.
Qed.

(** In the active state without a session id, a submission sends no
    [session_id], and leaves the state so unless the reply names a session. *)
Lemma unnamed_session_step (onChatComplete : bool)
    (createChat : ChatComponent.ChatData -> Js.settled ChatComponent.Response)
    (c : ChatComponent.State) :
  ChatComponent.hasInitialSubmission c = true ->
  ChatComponent.currentSessionId c = None ->
  neverNamesSession createChat ->
  let (s, calls) := ChatComponent.handleSubmit onChatComplete createChat c in
  ChatComponent.hasInitialSubmission s = true /\
  ChatComponent.currentSessionId s = None /\
  Forall (fun request => ChatComponent.session_id request = None)
         (ChatComponent.storeCalls calls).
Proof.
  intros Hactive Hnull Hsilent. unfold ChatComponent.handleSubmit.
  destruct (valid c) eqn:V.
  - rewrite (submit_valid c V).
    specialize (Hsilent (ChatComponent.chatData c)).
    assert (Hreq : ChatComponent.session_id (ChatComponent.chatData c) = None).
    { unfold ChatComponent.chatData. simpl. now rewrite Hactive, Hnull. }
    destruct (createChat (ChatComponent.chatData c)) as [response|msg].
    + unfold ChatComponent.settle.
      rewrite (no_session_named response Hsilent), Hactive. simpl.
      rewrite Hactive, Hnull.
      destruct onChatComplete; simpl; repeat split; auto.
    + simpl. rewrite Hactive, Hnull. repeat split; auto.
  - unfold ChatComponent.submit. unfold valid in V. rewrite Hactive in V |- *.
    simpl in V |- *. rewrite truthy_trim.
    destruct (blank (ChatComponent.message c)); [|discriminate].
    simpl. rewrite Hactive, Hnull. repeat split. constructor.
Qed.

Lemma unnamed_session_followUps (onChatComplete : bool) (turns : list Turn) :
  forall c : ChatComponent.State,
    ChatComponent.hasInitialSubmission c = true ->
    ChatComponent.currentSessionId c = None ->
    Forall (fun turn => neverNamesSession (answer turn)) turns ->
    Forall (fun request => ChatComponent.session_id request = None)
           (snd (followUps onChatComplete turns c)).
Proof.
  induction turns as [|turn rest IH]; intros c Hactive Hnull Hturns; simpl.
  - constructor.
  - inversion Hturns as [|? ? Hturn Hrest]; subst.
    destruct (onChangeMessage_session (typed turn) c) as [Ha Hn].
    pose proof (unnamed_session_step onChatComplete (answer turn)
                  (ChatComponent.onChangeMessage (typed turn) c)
                  (eq_trans Ha Hactive) (eq_trans Hn Hnull) Hturn) as Hstep.
    destruct (ChatComponent.handleSubmit onChatComplete (answer turn)
                (ChatComponent.onChangeMessage (typed turn) c)) as [s calls].
    destruct Hstep as (Hs & Hsn & Hcalls).
    specialize (IH s Hs Hsn Hrest).
    destruct (followUps onChatComplete rest s) as [s' more]. simpl in *.
    apply Forall_app. split; assumption.
Qed.

(** Counterexample to C10 as stated.  The first reply names no session and
    the first follow-up goes out without [session_id]; its reply names
    session "s1", the handler binds it, and the second follow-up of the same
    conversation carries [session_id]. *)
Lemma later_follow_up_carries_session_id :
  let s1 := fst (ChatComponent.handleSubmit true
                   (fun _ => Js.Resolved replyWithoutId) janeAsks) in
  ChatComponent.hasInitialSubmission s1 = true /\
  ChatComponent.currentSessionId s1 = None /\
  snd (followUps true
         [{| typed := js "And now?"; answer := fun _ => Js.Resolved replyWithId |};
          {| typed := js "Thanks"; answer := fun _ => Js.Resolved replyWithId |}]
         s1) =
  [{| ChatComponent.chat_name := js "Jane";
      ChatComponent.chat_problem := None;
      ChatComponent.chat_message := js "And now?";
      ChatComponent.session_id := None |};
   {| ChatComponent.chat_name := js "Jane";
      ChatComponent.chat_problem := None;
      ChatComponent.chat_message := js "Thanks";
      ChatComponent.session_id := Some (js "s1") |}].
Proof.
  vm_compute. repeat split.
Qed.

(** C10, amended.  If the success response to the first submission has no
    identifier, the form still becomes active, with the session id bound to
    null.  The follow-ups of that conversation omit [session_id] for as long
    as no reply names a session (a later reply that does is bound by the
    handler).  In every state the request carries [session_id] only when the
    form is active and a non-empty session id is bound. *)
Theorem unnamed_first_reply :
  forall (onChatComplete : bool)
         (createChat : ChatComponent.ChatData -> Js.settled ChatComponent.Response)
         (c s : ChatComponent.State) (request : ChatComponent.ChatData)
         (response : ChatComponent.Response) (turns : list Turn),
    ChatComponent.hasInitialSubmission c = false ->
    ChatComponent.submit c = ChatComponent.Awaiting s request ->
    createChat request = Js.Resolved response ->
    namesNoSession response ->
    Forall (fun turn => neverNamesSession (answer turn)) turns ->
    let s1 := fst (ChatComponent.handleSubmit onChatComplete createChat c) in
    ChatComponent.hasInitialSubmission s1 = true /\
    ChatComponent.currentSessionId s1 = None /\
    Forall (fun request => ChatComponent.session_id request = None)
           (snd (followUps onChatComplete turns s1)) /\
    (forall (any : ChatComponent.State) (sid : Js.str),
        ChatComponent.session_id (ChatComponent.chatData any) = Some sid ->
        ChatComponent.hasInitialSubmission any = true /\
        ChatComponent.currentSessionId any = Some sid /\ sid <> []).
Proof.
  intros onCC createChat c s request response turns
         Hfirst Hsubmit Hok Hnoid Hturns s1.
  destruct (submit_awaiting c s request Hsubmit) as (_ & -> & ->).
  assert (Hs1 : ChatComponent.hasInitialSubmission s1 = true /\
                ChatComponent.currentSessionId s1 = None).
  { subst s1. unfold ChatComponent.handleSubmit. rewrite Hsubmit, Hok.
    unfold ChatComponent.settle.
    rewrite (no_session_named response Hnoid), Hfirst.
    destruct onCC; split; reflexivity. }
  destruct Hs1 as [Hactive Hnull].
  split; [exact Hactive|]. split; [exact Hnull|]. split.
  - now apply unnamed_session_followUps.
  - intros any sid. unfold ChatComponent.chatData. simpl.
    destruct (ChatComponent.hasInitialSubmission any); simpl; [|discriminate].
    destruct (ChatComponent.currentSessionId any) as [[|x r]|]; simpl;
      try discriminate.
    intros E. injection E as <-. repeat split. discriminate.
Qed.

Lemma unnamed_first_reply_witness :
  let s1 := fst (ChatComponent.handleSubmit true
                   (fun _ => Js.Resolved replyWithoutId) janeAsks) in
  ChatComponent.hasInitialSubmission s1 = true /\
  ChatComponent.currentSessionId s1 = None /\
  Forall (fun request => ChatComponent.session_id request = None)
    (snd (followUps true
            [{| typed := js "And now?";
                answer := fun _ => Js.Resolved replyWithoutId |};
             {| typed := js "Thanks"; answer := fun _ => Js.Rejected [] |}]
            s1)).
Proof.
  intros s1.
  assert (Hturns :
            Forall (fun turn => neverNamesSession (answer turn))
              [{| typed := js "And now?";
                  answer := fun _ => Js.Resolved replyWithoutId |};
               {| typed := js "Thanks"; answer := fun _ => Js.Rejected [] |}]).
  { constructor; [intros request; split; reflexivity|].
    constructor; [intros request; exact I|constructor]. }
  destruct (unnamed_first_reply true (fun _ => Js.Resolved replyWithoutId)
              janeAsks (awaiting janeAsks) (ChatComponent.chatData janeAsks)
              replyWithoutId _
              eq_refl eq_refl eq_refl (conj eq_refl eq_refl) Hturns)
    as (Ha & Hn & Hreqs & _).
  split; [exact Ha|]. split; [exact Hn|exact Hreqs].
Defined.

(** ** The history refresh *)

(** What a failed fetch of the session list does to [App]'s state.  The
    later App.js replaces the cached list with the empty list, whatever the
    failure.  The earlier App.js does so unless the log of its [catch] block
    throws, that is unless the body of the error response is [null]: then
    the cached list stays.  Both clear the loading flag and leave
    [currentChat] alone. *)
Lemma failed_refresh (error : Api.AxiosError) (s : Session.State) :
  fst (AppService.loadChatHistory (Api.Failed error) s) =
    {| Session.chatHistory := [];
       Session.currentChat := Session.currentChat s;
       Session.loadingHistory := false |} /\
  fst (App.fetchChatHistory (Api.Failed error) s) =
    {| Session.chatHistory :=
         if App.logThrows error then Session.chatHistory s else [];
       Session.currentChat := Session.currentChat s;
       Session.loadingHistory := false |}.
Proof.
  split; [reflexivity|].
  unfold App.fetchChatHistory. destruct (App.logThrows error); reflexivity.
Qed.

(** C7 at a failure whose body is [null].  The server answers the GET of
    the session list with status 500 and the body [null] while one session
    is cached.  The earlier App.js leaves the cached list as it is, only the
    loading flag is cleared; the later App.js, on the same failure, replaces
    the list with the empty list. *)
Lemma refresh_failure_with_null_body :
  let cached := {| Session.chatHistory := [sessionS1];
                   Session.currentChat := None;
                   Session.loadingHistory := false |} in
  fst (App.fetchChatHistory (Api.Failed nullBodyError) cached) =
    {| Session.chatHistory := [sessionS1];
       Session.currentChat := None;
       Session.loadingHistory := false |} /\
  fst (AppService.loadChatHistory (Api.Failed nullBodyError) cached) =
    {| Session.chatHistory := [];
       Session.currentChat := None;
       Session.loadingHistory := false |}.
Proof.
  split; reflexivity.
Qed.

(** A successful fetch replaces the cached list by the list fetched. *)
Lemma refresh_replaces_history (data : list Session.Chat) (s : Session.State) :
  fst (App.fetchChatHistory (Api.Fulfilled data) s) =
    {| Session.chatHistory := data;
       Session.currentChat := Session.currentChat s;
       Session.loadingHistory := false |} /\
  fst (AppService.loadChatHistory (Api.Fulfilled data) s) =
    {| Session.chatHistory := data;
       Session.currentChat := Session.currentChat s;
       Session.loadingHistory := false |}.
Proof.
  split; reflexivity.
Qed.

(** ** Renaming a session *)

(** C9. Saving a rename whose new title is blank makes no call at all:
    [App]'s state, and with it the cached history and the session's title,
    is unchanged, and the rename ends.  Saving a non-blank title sends one
    PATCH for that session whose body is the trimmed title as [problem] and
    nothing else.  Both versions of App.js behave so. *)
Theorem rename_sends_trimmed_title_or_nothing :
  forall (patch : Api.axios unit) (get : Api.axios (list Session.Chat))
         (chatId : option Js.str) (s : Client.State),
    let title := Sidebar.newChatName (Client.sidebar s) in
    let isPatch := fun e => match e with Session.Patch _ _ => true | _ => false end in
    if blank title then
      Client.handleSaveRename Client.appJs patch get chatId s =
        ({| Client.app := Client.app s;
            Client.sidebar := Sidebar.endRename (Client.sidebar s);
            Client.chat := Client.chat s |}, []) /\
      Client.handleSaveRename Client.appService patch get chatId s =
        ({| Client.app := Client.app s;
            Client.sidebar := Sidebar.endRename (Client.sidebar s);
            Client.chat := Client.chat s |}, [])
    else
      filter isPatch (snd (Client.handleSaveRename Client.appJs patch get chatId s)) =
        [Session.Patch chatId {| Session.new_problem := Some (Js.trim title);
                                 Session.new_pinned := None |}] /\
      filter isPatch
        (snd (Client.handleSaveRename Client.appService patch get chatId s)) =
        [Session.Patch chatId {| Session.new_problem := Some (Js.trim title);
                                 Session.new_pinned := None |}].
Proof.
  intros patch get chatId s title isPatch. subst title.
  unfold Client.handleSaveRename, Sidebar.handleSaveRename.
  rewrite truthy_trim.
  destruct (blank (Sidebar.newChatName (Client.sidebar s))); simpl.
  - split; reflexivity.
  - unfold Client.asCallback. simpl.
    destruct patch as [[]|error]; simpl.
    + split; reflexivity.
    + split; [|reflexivity].
      unfold App.alertFor.
      destruct (Api.response error) as [[|detail]|]; try reflexivity.
      destruct (Api.request error); reflexivity.
Qed.

(** ** Deleting a session *)

(** Deleting the chat that [App] holds as [currentChat] resets the form. *)
Lemma delete_of_current_chat_resets_form
    (get : Api.axios (list Session.Chat))
    (chat : Session.Chat) (s : Client.State) :
  Sidebar.deletingChat (Client.sidebar s) = Some chat ->
  Session.isCurrentChat (Client.app s) (Session.chatId chat) = true ->
  let after h := fst (Client.handleConfirmDelete h (Api.Fulfilled tt) get s) in
  (Session.currentChat (Client.app (after Client.appJs)) = None /\
   Client.chat (after Client.appJs) = ChatComponent.useEffect_noChat (Client.chat s)) /\
  (Session.currentChat (Client.app (after Client.appService)) = None /\
   Client.chat (after Client.appService) =
     ChatComponent.useEffect_noChat (Client.chat s)).
Proof.
  intros Hdel Hcur after. subst after.
  unfold Client.handleConfirmDelete, Sidebar.handleConfirmDelete.
  rewrite Hdel. unfold Client.asCallback.
  cbn [Client.handleChatDelete Client.appJs Client.appService fst snd].
  unfold App.handleChatDelete, AppService.handleChatDelete, Api.deleteChatSession.
  rewrite Hcur.
  unfold Session.isCurrentChat in Hcur.
  destruct (Session.currentChat (Client.app s)); [|discriminate].
  unfold App.fetchChatHistory.
  destruct get as [data|error]; try destruct (App.logThrows error);
    simpl; repeat split.
Qed.

(** The reset form is the empty form of a new chat. *)
Lemma useEffect_noChat_initial (s : ChatComponent.State) :
  ChatComponent.useEffect_noChat s = ChatComponent.initial.
Proof.
  reflexivity.
Qed.

(** Deleting a chat that is not [currentChat] leaves the form alone. *)
Lemma delete_of_other_chat_keeps_form
    (delete : Api.axios unit) (get : Api.axios (list Session.Chat))
    (chat : Session.Chat) (s : Client.State) :
  Sidebar.deletingChat (Client.sidebar s) = Some chat ->
  Session.isCurrentChat (Client.app s) (Session.chatId chat) = false ->
  Client.chat (fst (Client.handleConfirmDelete Client.appJs delete get s)) =
    Client.chat s /\
  Client.chat (fst (Client.handleConfirmDelete Client.appService delete get s)) =
    Client.chat s.
Proof.
  intros Hdel Hcur.
  unfold Client.handleConfirmDelete, Sidebar.handleConfirmDelete.
  rewrite Hdel. unfold Client.asCallback.
  cbn [Client.handleChatDelete Client.appJs Client.appService fst snd].
  unfold App.handleChatDelete, AppService.handleChatDelete, Api.deleteChatSession.
  rewrite Hcur.
  unfold App.fetchChatHistory.
  destruct (Session.currentChat (Client.app s)) eqn:E;
    destruct delete as [[]|error], get as [data|failure];
    try destruct (App.logThrows failure);
    simpl; rewrite ?E; split; reflexivity.
Qed.

(** The sibling path at work: session "s1" is opened from the history,
    then deleted; the form is back to the empty form of a new chat. *)
Lemma delete_of_selected_session_resets_form :
  let outcome h :=
    let s := Client.handleSelectChat sessionS1 Client.initial in
    let (s', calls) :=
      Client.handleConfirmDelete h (Api.Fulfilled tt) (Api.Fulfilled [])
        (Client.inSidebar (Sidebar.handleDelete sessionS1) s) in
    ChatComponent.hasInitialSubmission (Client.chat s) = true /\
    ChatComponent.currentSessionId (Client.chat s) = Some (js "s1") /\
    calls = [Session.Delete (Some (js "s1")); Session.Get] /\
    Session.currentChat (Client.app s') = None /\
    Client.chat s' = ChatComponent.initial in
  outcome Client.appJs /\ outcome Client.appService.
Proof.
  vm_compute. repeat split.
Qed.

(** C8 at a conversation started in the form.  The form is active on
    session "s1", but [App] never learnt of it: [currentChat] is still null.
    The user deletes "s1" in the sidebar and confirms; the store deletes it
    and the refreshed history is empty.  The form is not reset: it still
    shows the transcript, is still active and still bound to "s1", and the
    next follow-up is sent with [session_id] "s1".  Both versions of App.js
    behave so. *)
Lemma delete_of_session_started_in_form :
  let outcome h :=
    let s := startedInForm h in
    let (s', calls) :=
      Client.handleConfirmDelete h (Api.Fulfilled tt) (Api.Fulfilled [])
        (Client.inSidebar (Sidebar.handleDelete sessionS1) s) in
    ChatComponent.hasInitialSubmission (Client.chat s) = true /\
    ChatComponent.currentSessionId (Client.chat s) = Some (js "s1") /\
    Session.currentChat (Client.app s) = None /\
    calls = [Session.Delete (Some (js "s1")); Session.Get] /\
    Session.chatHistory (Client.app s') = [] /\
    Client.chat s' = Client.chat s /\
    ChatComponent.hasInitialSubmission (Client.chat s') = true /\
    ChatComponent.currentSessionId (Client.chat s') = Some (js "s1") /\
    List.length (ChatComponent.messages (Client.chat s')) = 2%nat /\
    ChatComponent.session_id
      (ChatComponent.chatData
         (ChatComponent.onChangeMessage (js "And now?") (Client.chat s'))) =
      Some (js "s1") in
  outcome Client.appJs /\ outcome Client.appService.
Proof.
  vm_compute. repeat split.
Qed.

(** * Further properties of the client *)

(** ** The API service *)

(** The message the service rejects with is empty only when the server's
    [detail] is truthy and converts to the empty string, as [[]] does. *)
Lemma normalize_empty (onResponse otherwise : Js.str) (error : Api.AxiosError) :
  Js.truthy onResponse = true -> Js.truthy otherwise = true ->
  Js.truthy (Api.normalize onResponse otherwise error) = false ->
  exists detail,
    Api.response error = Some (Api.Data (Some detail)) /\
    Js.truthyJ detail = true /\ Js.toString detail = [].
Proof.
  intros H1 H2. unfold Api.normalize, Js.orText.
  destruct (Api.response error) as [[|[detail|]]|].
  - discriminate.
  - destruct (Js.truthyJ detail) eqn:T; [|congruence].
    intros E. exists detail. repeat split; trivial.
    now destruct (Js.toString detail).
  - congruence.
  - destruct (_ || _); [discriminate|].
    destruct (Api.request error); [discriminate|congruence].
Qed.

(** X1. Whatever the axios failure, after a submission that reached the
    store the form shows a non-empty error: the message [createChat]
    rejected with, or the form's own fallback text when that message is
    empty.  The message is empty only when the server's [detail] is truthy
    and converts to the empty string. *)
Theorem service_message_is_shown :
  forall (onChatComplete : bool) (error : Api.AxiosError) (c : ChatComponent.State),
    valid c = true ->
    let message :=
      Api.normalize (js "An error occurred while processing your request")
                    (js "An unexpected error occurred") error in
    let shown :=
      ChatComponent.error
        (fst (ChatComponent.handleSubmit onChatComplete
                (fun _ => Api.createChat (Api.Failed error)) c)) in
    Api.createChat (A := ChatComponent.Response) (Api.Failed error) =
      Js.Rejected message /\
    shown = Js.or message (js "An unexpected error occurred") /\
    Js.truthy shown = true /\
    (if Js.truthy message then shown = message
     else exists detail,
            Api.response error = Some (Api.Data (Some detail)) /\
            Js.truthyJ detail = true /\ Js.toString detail = []).
Proof.
  intros onCC error c V message shown.
  assert (Hshown : shown = Js.or message (js "An unexpected error occurred")).
  { subst shown. unfold ChatComponent.handleSubmit. rewrite (submit_valid c V).
    reflexivity. }
  split; [reflexivity|]. split; [exact Hshown|]. split.
  - rewrite Hshown. now apply or_truthy.
  - destruct (Js.truthy message) eqn:T.
    + rewrite Hshown. unfold Js.or. now rewrite T.
    + exact (normalize_empty
               (js "An error occurred while processing your request")
               (js "An unexpected error occurred") error eq_refl eq_refl T).
Qed.

Lemma service_message_is_shown_witness :
  let shown :=
    ChatComponent.error
      (fst (ChatComponent.handleSubmit true
              (fun _ => Api.createChat (Api.Failed sessionNotFound)) janeAsks)) in
  shown = js "Session not found" /\ Js.truthy shown = true.
Proof.
  destruct (service_message_is_shown true sessionNotFound janeAsks eq_refl)
    as (_ & _ & Htruthy & Hsame).
  split; [exact Hsame|exact Htruthy].
Defined.

(** The fallback text of the form is needed: for an error response whose
    [detail] is the empty array, [createChat] rejects with the empty message
    and the form shows "An unexpected error occurred". *)
Lemma empty_detail_needs_fallback :
  Api.createChat (A := ChatComponent.Response) (Api.Failed emptyDetailError) =
    Js.Rejected [] /\
  ChatComponent.error
    (fst (ChatComponent.handleSubmit true
            (fun _ => Api.createChat (Api.Failed emptyDetailError)) janeAsks)) =
  js "An unexpected error occurred".
Proof.
  split; reflexivity.
Qed.

(** X2. When the server answered with a failure whose body has a truthy
    [detail], every function of the service, in both versions of api.js,
    rejects with [String(detail)], whatever the error code or message: with
    the detail itself when it is a text, and with "[object Object]" once per
    entry, joined by commas, when it is a list of objects as in a validation
    failure. *)
Theorem server_detail_is_passed_on :
  forall (A : Type) (error : Api.AxiosError) (detail : Js.json),
    Api.response error = Some (Api.Data (Some detail)) ->
    Js.truthyJ detail = true ->
    let failed : Api.axios A := Api.Failed error in
    let rejected : Js.settled A := Js.Rejected (Js.toString detail) in
    (Api.createChat failed = rejected /\
     Api.fetchChatHistory failed = rejected /\
     Api.fetchChatSession failed = rejected /\
     Api.updateChatSession failed = rejected /\
     Api.deleteChatSession failed = rejected /\
     ApiPlain.createChat failed = rejected /\
     ApiPlain.fetchChatHistory failed = rejected /\
     ApiPlain.fetchChatSession failed = rejected /\
     ApiPlain.updateChatSession failed = rejected /\
     ApiPlain.deleteChatSession failed = rejected) /\
    match detail with
    | Js.JString text => Js.toString detail = text
    | Js.JArray [Js.JObject] => Js.toString detail = js "[object Object]"
    | Js.JArray [Js.JObject; Js.JObject] =>
        Js.toString detail = js "[object Object],[object Object]"
    | _ => True
    end.
Proof.
  intros A error detail Hresp Htruthy failed rejected. subst failed rejected.
  split.
  - unfold Api.createChat, Api.fetchChatHistory, Api.fetchChatSession,
      Api.updateChatSession, Api.deleteChatSession, ApiPlain.createChat,
      ApiPlain.fetchChatHistory, ApiPlain.fetchChatSession,
      ApiPlain.updateChatSession, ApiPlain.deleteChatSession,
      Api.normalize, ApiPlain.normalize.
    rewrite Hresp. unfold Js.orText. rewrite Htruthy. repeat split.
  - destruct detail as [| | | |[|[] [|[] [|]]]|]; trivial.
Qed.

Lemma server_detail_is_passed_on_witness :
  Api.deleteChatSession (A := unit) (Api.Failed sessionNotFound) =
    Js.Rejected (js "Session not found") /\
  Api.createChat (A := unit) (Api.Failed validationError) =
    Js.Rejected (js "[object Object]").
Proof.
  destruct (server_detail_is_passed_on unit sessionNotFound
              (Js.JString (js "Session not found")) eq_refl eq_refl)
    as ((_ & _ & _ & _ & Hd & _) & _).
  destruct (server_detail_is_passed_on unit validationError
              (Js.JArray [Js.JObject]) eq_refl eq_refl)
    as ((Hc & _) & _).
  split; [exact Hd|exact Hc].
Defined.

(** X3. A failure without response that is a timeout (code ECONNABORTED,
    or "timeout" in the message) is reported as "Request timed out..." by
    [createChat], [fetchChatHistory], [fetchChatSession] and
    [updateChatSession].  [deleteChatSession] has no such branch: it reports
    the same failure as a connection problem when a request was sent, and as
    an unexpected error otherwise. *)
Theorem timeout_is_reported_except_by_delete :
  forall (A : Type) (error : Api.AxiosError),
    Api.response error = None ->
    isTimeout error = true ->
    let failed : Api.axios A := Api.Failed error in
    Api.createChat failed = Js.Rejected timedOut /\
    Api.fetchChatHistory failed = Js.Rejected timedOut /\
    Api.fetchChatSession failed = Js.Rejected timedOut /\
    Api.updateChatSession failed = Js.Rejected timedOut /\
    Api.deleteChatSession failed =
      Js.Rejected (if Api.request error then unableToConnect
                   else js "An unexpected error occurred while deleting chat").
Proof.
  intros A error Hresp Htimeout failed. subst failed.
  unfold isTimeout in Htimeout.
  unfold Api.createChat, Api.fetchChatHistory, Api.fetchChatSession,
    Api.updateChatSession, Api.deleteChatSession, Api.normalize.
  rewrite Hresp, Htimeout. repeat split.
Qed.

Lemma timeout_is_reported_except_by_delete_witness :
  Api.updateChatSession (A := unit) (Api.Failed timeoutError) = Js.Rejected timedOut /\
  Api.deleteChatSession (A := unit) (Api.Failed timeoutError) =
    Js.Rejected unableToConnect.
Proof.
  destruct (timeout_is_reported_except_by_delete unit timeoutError eq_refl eq_refl)
    as (_ & _ & _ & Hu & Hd).
  split; [exact Hu|exact Hd].
Defined.

(** X4. The two versions of api.js settle alike on every outcome that is
    not a timeout: on success, on a failure with a response, and on a
    failure without response that does not pass the timeout test.  Their
    [deleteChatSession] settle alike on every outcome. *)
Theorem service_versions_agree_but_for_timeouts :
  forall (A : Type) (outcome : Api.axios A),
    (forall error, outcome = Api.Failed error ->
                   Api.response error = None -> isTimeout error = false) ->
    Api.createChat outcome = ApiPlain.createChat outcome /\
    Api.fetchChatHistory outcome = ApiPlain.fetchChatHistory outcome /\
    Api.fetchChatSession outcome = ApiPlain.fetchChatSession outcome /\
    Api.updateChatSession outcome = ApiPlain.updateChatSession outcome /\
    (forall any : Api.axios A,
        Api.deleteChatSession any = ApiPlain.deleteChatSession any).
Proof.
  intros A outcome Hnot.
  assert (Hdel : forall any : Api.axios A,
             Api.deleteChatSession any = ApiPlain.deleteChatSession any).
  { intros [data|error]; reflexivity. }
  destruct outcome as [data|error]; [repeat split; exact Hdel|].
  specialize (Hnot error eq_refl). unfold isTimeout in Hnot.
  unfold Api.createChat, Api.fetchChatHistory, Api.fetchChatSession,
    Api.updateChatSession, ApiPlain.createChat, ApiPlain.fetchChatHistory,
    ApiPlain.fetchChatSession, ApiPlain.updateChatSession,
    Api.normalize, ApiPlain.normalize.
  destruct (Api.response error) as [[|detail]|].
  - repeat split; exact Hdel.
  - repeat split; exact Hdel.
  - rewrite (Hnot eq_refl). repeat split; exact Hdel.
Qed.

Lemma service_versions_agree_but_for_timeouts_witness :
  Api.createChat (A := unit) (Api.Failed networkError) =
    ApiPlain.createChat (Api.Failed networkError) /\
  Api.createChat (A := unit) (Api.Failed networkError) = Js.Rejected unableToConnect.
Proof.
  assert (H : forall error, Api.Failed (A := unit) networkError = Api.Failed error ->
                            Api.response error = None -> isTimeout error = false).
  { intros error E _. injection E as <-. reflexivity. }
  destruct (service_versions_agree_but_for_timeouts unit (Api.Failed networkError) H)
    as (Hc & _).
  split; [exact Hc|reflexivity].
Defined.

(** ** The chat form between submissions *)

(** A blocked submission only sets the error and the field flags. *)
Lemma submit_blocked (c : ChatComponent.State) :
  valid c = false ->
  exists (text : Js.str) (flags : ChatComponent.FieldErrors),
    ChatComponent.submit c =
      ChatComponent.Returned
        (ChatComponent.setFieldErrors flags
           (ChatComponent.setError text
              (ChatComponent.setFieldErrors ChatComponent.noFieldErrors c))) /\
    Js.truthy text = true /\
    (ChatComponent.name_error flags = true \/ ChatComponent.message_error flags = true).
Proof.
  unfold valid, ChatComponent.submit. rewrite !truthy_trim.
  destruct (ChatComponent.hasInitialSubmission c),
           (blank (ChatComponent.name c)),
           (blank (ChatComponent.message c)); simpl; intros H;
    try discriminate; do 2 eexists; (split; [reflexivity|]); simpl; auto.
Qed.

(** X5. The submit button is disabled exactly when a request is in flight
    or [handleSubmit] would stop at validation; and while [handleSubmit]
    awaits the store the button is disabled. *)
Theorem button_agrees_with_validation :
  forall c : ChatComponent.State,
    ChatComponent.submitDisabled c =
      (ChatComponent.loading c ||
       match ChatComponent.submit c with
       | ChatComponent.Returned _ => true
       | ChatComponent.Awaiting _ _ => false
       end) /\
    match ChatComponent.submit c with
    | ChatComponent.Returned _ => True
    | ChatComponent.Awaiting s _ => ChatComponent.submitDisabled s = true
    end.
Proof.
  intros c. unfold ChatComponent.submitDisabled at 1, ChatComponent.submit.
  destruct (ChatComponent.hasInitialSubmission c),
           (Js.truthy (Js.trim (ChatComponent.name c))),
           (Js.truthy (Js.trim (ChatComponent.message c))); simpl; auto.
Qed.

(** X6. [handleSubmit] only ever appends to the transcript, and what it
    appends is fixed by how the submission ends: nothing when it is blocked
    at validation, the user turn when the store call fails, the user turn
    and then the assistant turn of the reply when it succeeds.  So the
    transcript before any run of follow-ups is a prefix of the transcript
    after it. *)
Theorem transcript_is_append_only :
  forall (onChatComplete : bool)
         (createChat : ChatComponent.ChatData -> Js.settled ChatComponent.Response)
         (turns : list Turn) (c : ChatComponent.State),
    match ChatComponent.submit c with
    | ChatComponent.Returned _ =>
        valid c = false /\
        ChatComponent.messages
          (fst (ChatComponent.handleSubmit onChatComplete createChat c)) =
          ChatComponent.messages c
    | ChatComponent.Awaiting _ request =>
        valid c = true /\ request = ChatComponent.chatData c /\
        ChatComponent.messages
          (fst (ChatComponent.handleSubmit onChatComplete createChat c)) =
          ChatComponent.messages c ++
          match createChat request with
          | Js.Rejected _ => [ChatComponent.userMessage c]
          | Js.Resolved response =>
              [ChatComponent.userMessage c;
               {| ChatComponent.type := ChatComponent.ai;
                  ChatComponent.content :=
                    Some (Js.orDefault (ChatComponent.ai_response response) []);
                  ChatComponent.sender := None;
                  ChatComponent.additional := None |}]
          end
    end /\
    (exists added,
        ChatComponent.messages (fst (followUps onChatComplete turns c)) =
          ChatComponent.messages c ++ added).
Proof.
  intros onCC createChat turns c.
  assert (Hstep : forall createChat c,
             exists added,
               ChatComponent.messages
                 (fst (ChatComponent.handleSubmit onCC createChat c)) =
                 ChatComponent.messages c ++ added).
  { clear. intros createChat c. unfold ChatComponent.handleSubmit.
    destruct (valid c) eqn:V.
    - rewrite (submit_valid c V).
      destruct (createChat (ChatComponent.chatData c)) as [response|text].
      + eexists. unfold ChatComponent.settle.
        destruct (ChatComponent.hasInitialSubmission c); cbn [negb];
          [destruct (Js.truthyO _ && negb _)|];
          simpl; rewrite <- app_assoc; reflexivity.
      + exists [ChatComponent.userMessage c]. reflexivity.
    - destruct (submit_blocked c V) as (text & flags & -> & _).
      exists []. simpl. now rewrite app_nil_r. }
  split.
  - unfold ChatComponent.handleSubmit. destruct (valid c) eqn:V.
    + rewrite (submit_valid c V). split; [reflexivity|]. split; [reflexivity|].
      destruct (createChat (ChatComponent.chatData c)) as [response|text].
      * unfold ChatComponent.settle.
        destruct (ChatComponent.hasInitialSubmission c); cbn [negb];
          [destruct (Js.truthyO _ && negb _)|];
          simpl; rewrite <- app_assoc; reflexivity.
      * reflexivity.
    + destruct (submit_blocked c V) as (text & flags & -> & _).
      split; reflexivity.
  - revert c. induction turns as [|turn rest IH]; intros c; simpl.
    + exists []. now rewrite app_nil_r.
    + destruct (Hstep (answer turn) (ChatComponent.onChangeMessage (typed turn) c))
        as (added & Hadded).
      destruct (ChatComponent.handleSubmit onCC (answer turn)
                  (ChatComponent.onChangeMessage (typed turn) c)) as [s calls].
      destruct (IH s) as (more & Hmore).
      destruct (followUps onCC rest s) as [s' reqs]. simpl in *.
      exists (added ++ more). rewrite Hmore, Hadded, app_assoc. f_equal. f_equal.
      unfold ChatComponent.onChangeMessage.
      now destruct (ChatComponent.message_error (ChatComponent.fieldErrors c)).
Qed.

(** In the active state a submission leaves the flag and the stored patient
    info as they are, and what it sends is the request built from them. *)
Lemma active_step (onChatComplete : bool)
    (createChat : ChatComponent.ChatData -> Js.settled ChatComponent.Response)
    (c : ChatComponent.State) :
  ChatComponent.hasInitialSubmission c = true ->
  let (s, calls) := ChatComponent.handleSubmit onChatComplete createChat c in
  ChatComponent.hasInitialSubmission s = true /\
  ChatComponent.initialPatientInfo s = ChatComponent.initialPatientInfo c /\
  (ChatComponent.storeCalls calls = [] \/
   ChatComponent.storeCalls calls = [ChatComponent.chatData c]).
Proof.
  intros Hactive. unfold ChatComponent.handleSubmit.
  destruct (valid c) eqn:V.
  - rewrite (submit_valid c V).
    destruct (createChat (ChatComponent.chatData c)) as [response|text].
    + unfold ChatComponent.settle. rewrite Hactive. cbn [negb].
      destruct (Js.truthyO _ && negb _), onChatComplete; simpl; auto.
    + simpl. auto.
  - destruct (submit_blocked c V) as (text & flags & -> & _). simpl. auto.
Qed.

(** X7. The patient info is read-only once the form is active: through any
    run of follow-ups the stored info stays the same, and every request of
    the run carries the stored name and the same problem as any other. *)
Theorem follow_ups_repeat_patient_info :
  forall (onChatComplete : bool) (turns : list Turn) (c : ChatComponent.State),
    ChatComponent.hasInitialSubmission c = true ->
    ChatComponent.hasInitialSubmission (fst (followUps onChatComplete turns c)) = true /\
    ChatComponent.initialPatientInfo (fst (followUps onChatComplete turns c)) =
      ChatComponent.initialPatientInfo c /\
    Forall (fun request =>
              ChatComponent.chat_name request =
                ChatComponent.patient_name (ChatComponent.initialPatientInfo c) /\
              ChatComponent.chat_problem request =
                ChatComponent.chat_problem (ChatComponent.chatData c))
           (snd (followUps onChatComplete turns c)).
Proof.
  intros onCC turns. induction turns as [|turn rest IH]; intros c Hactive; simpl.
  - auto.
  - set (typing := ChatComponent.onChangeMessage (typed turn) c).
    assert (Htyping : ChatComponent.hasInitialSubmission typing = true /\
                      ChatComponent.initialPatientInfo typing =
                        ChatComponent.initialPatientInfo c).
    { subst typing. unfold ChatComponent.onChangeMessage.
      destruct (ChatComponent.message_error (ChatComponent.fieldErrors c));
        simpl; auto. }
    destruct Htyping as [Ha Hi].
    pose proof (active_step onCC (answer turn) typing Ha) as Hstep.
    destruct (ChatComponent.handleSubmit onCC (answer turn) typing) as [s calls].
    destruct Hstep as (Hs & Hinfo & Hcalls).
    specialize (IH s Hs).
    destruct (followUps onCC rest s) as [s' more].
    destruct IH as (Hs' & Hinfo' & Hmore). simpl in Hs', Hinfo', Hmore |- *.
    assert (Hsame : forall a b : ChatComponent.State,
               ChatComponent.hasInitialSubmission a = true ->
               ChatComponent.hasInitialSubmission b = true ->
               ChatComponent.initialPatientInfo a = ChatComponent.initialPatientInfo b ->
               ChatComponent.chat_name (ChatComponent.chatData a) =
                 ChatComponent.patient_name (ChatComponent.initialPatientInfo b) /\
               ChatComponent.chat_problem (ChatComponent.chatData a) =
                 ChatComponent.chat_problem (ChatComponent.chatData b)).
    { intros a b Haa Hb Hab. unfold ChatComponent.chatData.
      rewrite Haa, Hb, Hab. simpl. auto. }
    split; [exact Hs'|]. split; [congruence|].
    apply Forall_app. split.
    + destruct Hcalls as [->| ->]; [constructor|].
      constructor; [|constructor]. now apply Hsame.
    + eapply Forall_impl; [|exact Hmore].
      intros request [Hn Hp].
      destruct (Hsame s c Hs Hactive (eq_trans Hinfo Hi)) as [_ Hpc].
      split; [now rewrite Hn, Hinfo, Hi|now rewrite Hp].
Qed.

Lemma follow_ups_repeat_patient_info_witness :
  let active := fst (ChatComponent.handleSubmit true
                       (fun _ => Js.Resolved replyWithId) janeAsks) in
  Forall (fun request => ChatComponent.chat_name request = js "Jane" /\
                         ChatComponent.chat_problem request = None)
    (snd (followUps true
            [{| typed := js "And now?"; answer := fun _ => Js.Resolved replyWithId |};
             {| typed := js "Thanks"; answer := fun _ => Js.Rejected [] |}]
            active)).
Proof.
  intros active.
  pose proof (follow_ups_repeat_patient_info true
                [{| typed := js "And now?";
                    answer := fun _ => Js.Resolved replyWithId |};
                 {| typed := js "Thanks"; answer := fun _ => Js.Rejected [] |}]
                active eq_refl) as (_ & _ & H).
  vm_compute in H. vm_compute. exact H.
Defined.

(** The session id read off a reply, [response.id || response._id || null],
    is null or a non-empty id. *)
Lemma reply_session (response : ChatComponent.Response) :
  let sessionId :=
    Js.orO (Js.orO (ChatComponent.id response) (ChatComponent._id response)) None in
  (sessionId = None /\ Js.truthyO sessionId = false) \/
  (exists sid, sessionId = Some sid /\ sid <> [] /\ Js.truthyO sessionId = true /\
               Js.orO (ChatComponent.id response) (ChatComponent._id response) = Some sid).
Proof.
  unfold Js.orO.
  destruct (ChatComponent.id response) as [[|x r]|],
           (ChatComponent._id response) as [[|y t]|]; simpl; auto;
    right; eexists; (split; [reflexivity|]); (split; [discriminate|]); auto.
Qed.

(** X8. A submission never unbinds the session: with a non-empty session id
    bound in the active state, the id afterwards is the same one, or the
    non-empty id a successful reply carried instead ([id], else [_id]). *)
Theorem bound_session_stays_bound :
  forall (onChatComplete : bool)
         (createChat : ChatComponent.ChatData -> Js.settled ChatComponent.Response)
         (c : ChatComponent.State) (sid : Js.str),
    ChatComponent.hasInitialSubmission c = true ->
    ChatComponent.currentSessionId c = Some sid ->
    sid <> [] ->
    exists sid',
      ChatComponent.currentSessionId
        (fst (ChatComponent.handleSubmit onChatComplete createChat c)) = Some sid' /\
      sid' <> [] /\
      (sid' = sid \/
       exists response,
         createChat (ChatComponent.chatData c) = Js.Resolved response /\
         Js.orO (ChatComponent.id response) (ChatComponent._id response) = Some sid').
Proof.
  intros onCC createChat c sid Hactive Hsid Hne.
  unfold ChatComponent.handleSubmit.
  destruct (valid c) eqn:V.
  - rewrite (submit_valid c V).
    destruct (createChat (ChatComponent.chatData c)) as [response|text] eqn:Hreply.
    + unfold ChatComponent.settle. rewrite Hactive. cbn [negb].
      destruct (reply_session response) as [[-> ->]|(new & -> & Hnew & -> & Horo)].
      * cbn [andb]. exists sid. split; [destruct onCC; simpl; now rewrite Hsid|]. auto.
      * cbn [andb].
        destruct (negb (Js.eqbO (Some new) (ChatComponent.currentSessionId c))).
        -- exists new. split; [destruct onCC; reflexivity|]. split; [exact Hnew|].
           right. exists response. auto.
        -- exists sid. split; [destruct onCC; simpl; now rewrite Hsid|]. auto.
    + simpl. exists sid. rewrite Hsid. auto.
  - destruct (submit_blocked c V) as (text & flags & -> & _). simpl.
    exists sid. rewrite Hsid. auto.
Qed.

Lemma bound_session_stays_bound_witness :
  let active := ChatComponent.onChangeMessage (js "And now?")
                  (fst (ChatComponent.handleSubmit true
                          (fun _ => Js.Resolved replyWithId) janeAsks)) in
  exists sid',
    ChatComponent.currentSessionId
      (fst (ChatComponent.handleSubmit true
              (fun _ => Js.Resolved replyWithoutId) active)) = Some sid' /\
    sid' <> [].
Proof.
  intros active.
  destruct (bound_session_stays_bound true (fun _ => Js.Resolved replyWithoutId)
              active (js "s1") eq_refl eq_refl ltac:(discriminate))
    as (sid' & H & Hne & _).
  exists sid'. split; assumption.
Defined.

(** X9. After a successful submission the message field is empty again and
    the name and problem fields hold what they held; no error is shown,
    loading is over, and the form is active. *)
Theorem success_clears_message_field_only :
  forall (onChatComplete : bool)
         (createChat : ChatComponent.ChatData -> Js.settled ChatComponent.Response)
         (c : ChatComponent.State) (response : ChatComponent.Response),
    valid c = true ->
    createChat (ChatComponent.chatData c) = Js.Resolved response ->
    let s := fst (ChatComponent.handleSubmit onChatComplete createChat c) in
    ChatComponent.message s = [] /\
    ChatComponent.name s = ChatComponent.name c /\
    ChatComponent.problem s = ChatComponent.problem c /\
    ChatComponent.error s = [] /\
    ChatComponent.fieldErrors s = ChatComponent.noFieldErrors /\
    ChatComponent.loading s = false /\
    ChatComponent.hasInitialSubmission s = true.
Proof.
  intros onCC createChat c response V Hok s. subst s.
  unfold ChatComponent.handleSubmit. rewrite (submit_valid c V), Hok.
  unfold ChatComponent.settle.
  destruct (ChatComponent.hasInitialSubmission c) eqn:Hactive; cbn [negb].
  - destruct (Js.truthyO _ && negb _), onCC; simpl; rewrite ?Hactive; repeat split.
  - destruct onCC; simpl; repeat split.
Qed.

Lemma success_clears_message_field_only_witness :
  let s := fst (ChatComponent.handleSubmit true
                  (fun _ => Js.Resolved replyWithId) janeAsks) in
  ChatComponent.message s = [] /\ ChatComponent.name s = js "Jane".
Proof.
  intros s.
  destruct (success_clears_message_field_only true
              (fun _ => Js.Resolved replyWithId) janeAsks replyWithId
              eq_refl eq_refl) as (Hm & Hn & _).
  split; [exact Hm|exact Hn].
Defined.

(** X10. Typing into the message field clears the error of a submission
    that was blocked for its blank message, together with the field flag.
    It does not clear the error of a failed store call: that one stays
    until the next submission. *)
Theorem typing_clears_validation_error_only :
  forall (onChatComplete : bool)
         (createChat : ChatComponent.ChatData -> Js.settled ChatComponent.Response)
         (c : ChatComponent.State) (value : Js.str),
    let s := fst (ChatComponent.handleSubmit onChatComplete createChat c) in
    let typing := ChatComponent.onChangeMessage value s in
    (ChatComponent.hasInitialSubmission c = true \/
     blank (ChatComponent.name c) = false) ->
    (blank (ChatComponent.message c) = true ->
       Js.truthy (ChatComponent.error s) = true /\
       ChatComponent.error typing = [] /\
       ChatComponent.fieldErrors typing = ChatComponent.noFieldErrors) /\
    (forall text,
       blank (ChatComponent.message c) = false ->
       createChat (ChatComponent.chatData c) = Js.Rejected text ->
       Js.truthy (ChatComponent.error s) = true /\
       ChatComponent.error typing = ChatComponent.error s).
Proof.
  intros onCC createChat c value s typing Hname. subst typing s. split.
  - intros Hmsg. unfold ChatComponent.handleSubmit, ChatComponent.submit.
    rewrite !truthy_trim, Hmsg.
    destruct Hname as [-> | ->]; cbn [negb andb];
      [|rewrite andb_false_r];
      destruct (ChatComponent.hasInitialSubmission c); repeat split.
  - intros text Hmsg Hfail.
    assert (V : valid c = true).
    { unfold valid. rewrite Hmsg. destruct Hname as [-> | ->]; trivial.
      now rewrite orb_true_r. }
    unfold ChatComponent.handleSubmit. rewrite (submit_valid c V), Hfail.
    simpl. split; [now apply or_truthy|reflexivity].
Qed.

Lemma typing_clears_validation_error_only_witness :
  let active := fst (ChatComponent.handleSubmit true
                       (fun _ => Js.Resolved replyWithId) janeAsks) in
  ChatComponent.error
    (ChatComponent.onChangeMessage (js "A")
       (fst (ChatComponent.handleSubmit true (fun _ => Js.Rejected []) active))) = [].
Proof.
  intros active.
  destruct (typing_clears_validation_error_only true (fun _ => Js.Rejected [])
              active (js "A") (or_introl eq_refl)) as [H _].
  exact (proj1 (proj2 (H eq_refl))).
Defined.

(** ** Opening a chat of the history *)

Lemma startsWith_app (p y z : Js.str) :
  (List.length p <= List.length y)%nat -> Js.startsWith p (y ++ z) = Js.startsWith p y.
Proof.
  revert y. induction p as [|a p IH]; intros [|b y] H; simpl in *; trivial.
  - lia.
  - rewrite IH by lia. reflexivity.
Qed.

(** The search for "Message:" skips a prefix in which the marker does not
    begin. *)
Lemma matchMessage_skip (p rest : Js.str) :
  Js.includes (js "Message:") (p ++ js "Message") = false ->
  Js.matchMessage (p ++ js "Message:" ++ rest) =
  Js.matchMessage (js "Message:" ++ rest).
Proof.
  induction p as [|c p IH]; intros H; [reflexivity|].
  change (Js.includes (js "Message:") ((c :: p) ++ js "Message"))
    with (Js.startsWith (js "Message:") ((c :: p) ++ js "Message")
          || Js.includes (js "Message:") (p ++ js "Message")) in H.
  apply orb_false_iff in H as [Hhere Hlater].
  change ((c :: p) ++ js "Message:" ++ rest)
    with (c :: (p ++ js "Message:" ++ rest)).
  change (Js.matchMessage (c :: (p ++ js "Message:" ++ rest)))
    with (match (if Js.startsWith (js "Message:") (c :: (p ++ js "Message:" ++ rest))
                 then Js.afterMessage (skipn 8 (c :: (p ++ js "Message:" ++ rest)))
                 else None)
          with
          | Some group => Some group
          | None => Js.matchMessage (p ++ js "Message:" ++ rest)
          end).
  replace (c :: (p ++ js "Message:" ++ rest))
    with (((c :: p) ++ js "Message") ++ (58 :: rest)).
  - rewrite startsWith_app, Hhere; [now apply IH|].
    rewrite List.length_app. simpl. lia.
  - rewrite <- app_assoc. reflexivity.
Qed.

Lemma trimStart_idempotent (s : Js.str) :
  Js.trimStart (Js.trimStart s) = Js.trimStart s.
Proof.
  induction s as [|c r IH]; simpl; trivial.
  destruct (Js.isWhiteSpace c) eqn:E; trivial. simpl. now rewrite E.
Qed.

(** Trimming the captured group gives the text after the marker, trimmed. *)
Lemma trim_afterMessage (rest : Js.str) :
  rest <> [] ->
  exists group, Js.afterMessage rest = Some group /\ Js.trim group = Js.trim rest.
Proof.
  intros Hrest. unfold Js.afterMessage.
  destruct (Js.trimStart rest) as [|c r] eqn:E.
  - assert (B : blank rest = true) by now apply trimStart_nil.
    destruct (rev rest) as [|c r] eqn:R.
    + elim Hrest. exact (proj1 (rev_nil_iff rest) R).
    + exists [c]. split; [reflexivity|].
      assert (Hc : Js.isWhiteSpace c = true).
      { rewrite <- blank_rev, R in B. unfold blank in B. simpl in B.
        now apply andb_true_iff in B as [B _]. }
      apply trim_nil in B. rewrite B.
      unfold Js.trim. simpl. rewrite Hc. reflexivity.
  - exists (c :: r). split; [reflexivity|].
    rewrite <- E. unfold Js.trim. now rewrite trimStart_idempotent.
Qed.

(** X11. Of a stored user turn that holds the marker "Message:", the
    transcript shows what follows the first marker, trimmed: the patient
    name and problem lines in front of it are dropped. *)
Theorem stored_user_turn_shows_message_part :
  forall (before rest : Js.str) (msg : Session.StoredMessage),
    Session.role msg = js "user" ->
    Session.content msg = before ++ js "Message:" ++ rest ->
    Js.includes (js "Message:") (before ++ js "Message") = false ->
    rest <> [] ->
    ChatComponent.displayContent msg = Js.trim rest.
Proof.
  intros before rest msg Hrole Hcontent Hfirst Hrest.
  unfold ChatComponent.displayContent. rewrite Hrole, Hcontent.
  change (Js.eqb (js "user") (js "user")) with true. cbv iota.
  rewrite (matchMessage_skip before rest Hfirst).
  destruct (trim_afterMessage rest Hrest) as (group & Hgroup & Htrim).
  change (Js.matchMessage (js "Message:" ++ rest))
    with (match Js.afterMessage rest with
          | Some g => Some g
          | None => Js.matchMessage (js "essage:" ++ rest)
          end).
  rewrite Hgroup. exact Htrim.
Qed.

Lemma stored_user_turn_shows_message_part_witness :
  ChatComponent.displayContent
    {| Session.role := js "user";
       Session.content :=
         (js "Patient Name: Jane" ++ [10]) ++ js "Message:" ++ js " I have a fever " |}
  = Js.trim (js " I have a fever ").
Proof.
  apply (stored_user_turn_shows_message_part (js "Patient Name: Jane" ++ [10])
           (js " I have a fever "));
    [reflexivity|reflexivity|reflexivity|discriminate].
Defined.

(** X12. Opening a chat makes the form active on that session with the
    message field empty, and shows one transcript entry per stored turn,
    or the two entries rebuilt from an old record without turns: never an
    empty transcript.  The error, the field flags and the loading flag of
    the form are left as they were: while a request of the previous
    conversation is in flight the submit button of the opened chat stays
    disabled; otherwise it is enabled as soon as a non-blank message is
    typed. *)
Theorem opening_a_chat :
  forall (opened : Session.Chat) (s : Client.State),
    let form := Client.chat (Client.handleSelectChat opened s) in
    Session.currentChat (Client.app (Client.handleSelectChat opened s)) = Some opened /\
    ChatComponent.hasInitialSubmission form = true /\
    ChatComponent.currentSessionId form = Js.orO (Session.chatId opened) None /\
    ChatComponent.message form = [] /\
    List.length (ChatComponent.messages form) =
      match Session.messages opened with
      | Some (turn :: turns) => S (List.length turns)
      | _ => 2%nat
      end /\
    ChatComponent.error form = ChatComponent.error (Client.chat s) /\
    ChatComponent.fieldErrors form = ChatComponent.fieldErrors (Client.chat s) /\
    ChatComponent.loading form = ChatComponent.loading (Client.chat s) /\
    (if ChatComponent.loading (Client.chat s)
     then ChatComponent.submitDisabled form = true
     else ChatComponent.submitDisabled form = true /\
          forall typed, ChatComponent.submitDisabled
                          (ChatComponent.onChangeMessage typed form) = blank typed).
Proof.
  intros opened s form. subst form.
  unfold Client.handleSelectChat. simpl.
  unfold ChatComponent.useEffect_chat.
  destruct (Session.messages opened) as [[|turn turns]|]; simpl;
    rewrite ?List.length_map; repeat split;
    unfold ChatComponent.submitDisabled, ChatComponent.onChangeMessage; simpl;
    destruct (ChatComponent.loading (Client.chat s)) eqn:L; simpl;
    repeat split; intros typed;
    destruct (ChatComponent.message_error _); simpl;
    rewrite L, truthy_trim, negb_involutive; reflexivity.
Qed.

(** The problem a follow-up sends for a chat opened from the history: the
    chat's problem, unless it is absent, empty or the placeholder. *)
Lemma opened_problem (problem : option Js.str) :
  (let stored := Js.orDefault problem ChatComponent.noDisease in
   if negb (Js.eqb stored ChatComponent.noDisease) then Some stored else None) =
  (if Js.truthyO problem && negb (Js.eqbO problem (Some ChatComponent.noDisease))
   then problem else None).
Proof.
  destruct problem as [[|x r]|]; reflexivity.
Qed.

(** X13. A follow-up typed into a chat opened from the history passes
    validation whenever it is not blank, and its request continues that
    chat: the chat's id ([id], else [_id]) as [session_id] when it is
    non-empty, the chat's patient name or "Anonymous", the chat's problem
    unless absent, empty or the placeholder, and the trimmed message. *)
Theorem follow_up_on_opened_chat :
  forall (opened : Session.Chat) (s : Client.State) (typed : Js.str),
    blank typed = false ->
    let c := ChatComponent.onChangeMessage typed
               (Client.chat (Client.handleSelectChat opened s)) in
    ChatComponent.submit c =
      ChatComponent.Awaiting (awaiting c)
        {| ChatComponent.chat_name :=
             Js.orDefault (Session.patient_name opened) (js "Anonymous");
           ChatComponent.chat_problem :=
             if Js.truthyO (Session.problem opened)
                && negb (Js.eqbO (Session.problem opened)
                                 (Some ChatComponent.noDisease))
             then Session.problem opened else None;
           ChatComponent.chat_message := Js.trim typed;
           ChatComponent.session_id := Js.orO (Session.chatId opened) None |}.
Proof.
  intros opened s typed Htyped c.
  assert (Hc : ChatComponent.hasInitialSubmission c = true /\
               ChatComponent.message c = typed /\
               ChatComponent.initialPatientInfo c =
                 {| ChatComponent.patient_name :=
                      Js.orDefault (Session.patient_name opened) (js "Anonymous");
                    ChatComponent.patient_problem :=
                      Js.orDefault (Session.problem opened) ChatComponent.noDisease |} /\
               ChatComponent.currentSessionId c = Js.orO (Session.chatId opened) None).
  { subst c. unfold ChatComponent.onChangeMessage, Client.handleSelectChat.
    cbn [Client.chat Client.app Session.handleSelectChat Session.setCurrentChat
         Session.currentChat ChatComponent.useEffect_currentChat].
    unfold ChatComponent.useEffect_chat.
    destruct (Session.messages opened) as [[|turn turns]|];
      destruct (ChatComponent.message_error _); repeat split. }
  destruct Hc as (Hactive & Hmessage & Hinfo & Hsid).
  assert (V : valid c = true).
  { unfold valid. now rewrite Hactive, Hmessage, Htyped. }
  rewrite (submit_valid c V). f_equal.
  unfold ChatComponent.chatData. rewrite Hactive, Hmessage, Hinfo, Hsid.
  cbn [ChatComponent.patient_name ChatComponent.patient_problem andb].
  f_equal.
  - exact (opened_problem (Session.problem opened)).
  - unfold Js.orO. destruct (Js.truthyO (Session.chatId opened)) eqn:T; simpl.
    + now rewrite T.
    + reflexivity.
Qed.

Lemma follow_up_on_opened_chat_witness :
  exists s,
    ChatComponent.submit
      (ChatComponent.onChangeMessage (js "And now?")
         (Client.chat (Client.handleSelectChat sessionS1 Client.initial))) =
    ChatComponent.Awaiting s
      {| ChatComponent.chat_name := js "Jane";
         ChatComponent.chat_problem := Some (js "I have a fever");
         ChatComponent.chat_message := js "And now?";
         ChatComponent.session_id := Some (js "s1") |}.
Proof.
  eexists.
  exact (follow_up_on_opened_chat sessionS1 Client.initial (js "And now?") eq_refl).
Defined.

(** ** The mounted client *)

(** X14. Submitting the form refreshes the history exactly when the store
    call succeeded: a blocked submission sends nothing and leaves [App]
    alone, a failed one sends its request and leaves [App] alone, a
    successful one sends its request and then runs the refresh. *)
Theorem history_is_refreshed_after_success_only :
  forall (h : Client.Handlers)
         (createChat : ChatComponent.ChatData -> Js.settled ChatComponent.Response)
         (get : Api.axios (list Session.Chat)) (s : Client.State),
    let result := Client.handleSubmit h createChat get s in
    let after := fst (fst result) in
    let requests := snd (fst result) in
    let appCalls := snd result in
    match ChatComponent.submit (Client.chat s) with
    | ChatComponent.Returned _ =>
        requests = [] /\ appCalls = [] /\ Client.app after = Client.app s
    | ChatComponent.Awaiting _ request =>
        requests = [request] /\
        match createChat request with
        | Js.Resolved _ =>
            (Client.app after, appCalls) = Client.refresh h get (Client.app s)
        | Js.Rejected _ =>
            appCalls = [] /\ Client.app after = Client.app s
        end
    end.
Proof.
  intros h createChat get s result after requests appCalls.
  subst appCalls requests after result.
  unfold Client.handleSubmit, ChatComponent.handleSubmit.
  destruct (ChatComponent.submit (Client.chat s)) as [blocked|waiting request].
  - simpl. auto.
  - destruct (createChat request) as [response|text]; simpl.
    + destruct (Client.refresh h get (Client.app s)); simpl. auto.
    + auto.
Qed.

(** X15. "New chat" resets the form only when a chat of the history is
    open: then [currentChat] becomes null and the form is the empty form
    again.  When [currentChat] is already null, and that includes a
    conversation the form started itself, nothing changes at all. *)
Theorem new_chat_resets_an_opened_chat_only :
  forall s : Client.State,
    match Session.currentChat (Client.app s) with
    | Some _ =>
        Session.currentChat (Client.app (Client.handleNewChat s)) = None /\
        Session.chatHistory (Client.app (Client.handleNewChat s)) =
          Session.chatHistory (Client.app s) /\
        Client.chat (Client.handleNewChat s) = ChatComponent.initial
    | None => Client.handleNewChat s = s
    end.
Proof.
  intros [[history current loadingHistory] sidebar form]. simpl.
  destruct current; simpl; auto.
Qed.

(** X16. Fed the same outcomes of the HTTP calls, none of them a failure
    with a [null] body, the two versions of App.js do the same to [App]'s
    state, send the same requests, show as many alerts and settle alike
    (both fulfilled or both rejected), for the refresh, the update and the
    delete.  On success no alert is shown; on a failed update or delete the
    state is as before, no refresh is sent and one alert is shown.  On a
    failure with a [null] body they part: the earlier version then keeps the
    cached list on a failed refresh and shows no alert on a failed update or
    delete, where the later one clears the list and shows its alert. *)
Theorem app_versions_agree :
  forall (change : Api.axios unit) (get : Api.axios (list Session.Chat))
         (chatId : option Js.str) (updates : Session.Updates) (s : Session.State),
    hasNullBody change = false ->
    hasNullBody get = false ->
    App.fetchChatHistory get s = AppService.loadChatHistory get s /\
    (let one := App.handleChatUpdate change get chatId updates s in
     let other := AppService.handleChatUpdate change get chatId updates s in
     fst (fst one) = fst (fst other) /\
     storeRequests (snd (fst one)) = storeRequests (snd (fst other)) /\
     List.length (alerts (snd (fst one))) = List.length (alerts (snd (fst other))) /\
     resolved (snd one) = resolved (snd other) /\
     (if resolved (snd one) then alerts (snd (fst one)) = []
      else
        fst (fst one) = s /\
        storeRequests (snd (fst one)) = [Session.Patch chatId updates] /\
        List.length (alerts (snd (fst one))) = 1%nat)) /\
    (let one := App.handleChatDelete change get chatId s in
     let other := AppService.handleChatDelete change get chatId s in
     fst (fst one) = fst (fst other) /\
     storeRequests (snd (fst one)) = storeRequests (snd (fst other)) /\
     List.length (alerts (snd (fst one))) = List.length (alerts (snd (fst other))) /\
     resolved (snd one) = resolved (snd other) /\
     (if resolved (snd one) then alerts (snd (fst one)) = []
      else
        fst (fst one) = s /\
        storeRequests (snd (fst one)) = [Session.Delete chatId] /\
        List.length (alerts (snd (fst one))) = 1%nat)) /\
    (let failed : Api.axios unit := Api.Failed nullBodyError in
     Session.chatHistory
       (fst (App.fetchChatHistory (Api.Failed nullBodyError) s)) =
       Session.chatHistory s /\
     Session.chatHistory
       (fst (AppService.loadChatHistory (Api.Failed nullBodyError) s)) = [] /\
     alerts (snd (fst (App.handleChatUpdate failed get chatId updates s))) = [] /\
     List.length
       (alerts (snd (fst (AppService.handleChatUpdate failed get chatId updates s))))
       = 1%nat /\
     alerts (snd (fst (App.handleChatDelete failed get chatId s))) = [] /\
     List.length
       (alerts (snd (fst (AppService.handleChatDelete failed get chatId s))))
       = 1%nat).
Proof.
  intros change get chatId updates s Hchange Hget.
  assert (Hrefresh : forall t,
             App.fetchChatHistory get t = AppService.loadChatHistory get t).
  { intros t. unfold App.fetchChatHistory, AppService.loadChatHistory.
    destruct get as [data|error]; [reflexivity|].
    unfold hasNullBody in Hget. unfold App.logThrows.
    destruct (Api.response error) as [[|detail]|]; [discriminate| |]; reflexivity. }
  split; [apply Hrefresh|].
  split; [|split].
  - destruct change as [[]|error].
    + unfold App.handleChatUpdate, AppService.handleChatUpdate.
      cbn [Api.updateChatSession]. rewrite Hrefresh.
      destruct (AppService.loadChatHistory get s) as [t calls] eqn:E.
      unfold AppService.loadChatHistory in E. injection E as <- <-.
      simpl. repeat split.
    + unfold hasNullBody in Hchange.
      unfold App.handleChatUpdate, AppService.handleChatUpdate,
        Api.updateChatSession, App.alertFor, storeRequests, alerts.
      destruct (Api.response error) as [[|detail]|]; [discriminate| |];
        try destruct (Api.request error); simpl; repeat split.
  - destruct change as [[]|error].
    + unfold App.handleChatDelete, AppService.handleChatDelete.
      cbn [Api.deleteChatSession]. rewrite Hrefresh.
      destruct (AppService.loadChatHistory get _) as [t calls] eqn:E.
      unfold AppService.loadChatHistory in E. injection E as <- <-.
      simpl. repeat split.
    + unfold hasNullBody in Hchange.
      unfold App.handleChatDelete, AppService.handleChatDelete,
        Api.deleteChatSession, App.alertFor, storeRequests, alerts.
      destruct (Api.response error) as [[|detail]|]; [discriminate| |];
        try destruct (Api.request error); simpl; repeat split.
  - repeat split.
Qed.

Lemma app_versions_agree_witness :
  App.handleChatDelete (Api.Failed networkError) (Api.Fulfilled [])
    (Some (js "s1")) Session.initial =
  (Session.initial,
   [Session.Delete (Some (js "s1"));
    Session.Alert (js "Unable to connect to the server.")],
   Js.Rejected (js "Network Error")) /\
  fst (fst (App.handleChatDelete (Api.Failed networkError) (Api.Fulfilled [])
              (Some (js "s1")) Session.initial)) =
  fst (fst (AppService.handleChatDelete (Api.Failed networkError) (Api.Fulfilled [])
              (Some (js "s1")) Session.initial)).
Proof.
  split; [reflexivity|].
  destruct (app_versions_agree (Api.Failed networkError) (Api.Fulfilled [])
              (Some (js "s1"))
              {| Session.new_problem := None; Session.new_pinned := None |}
              Session.initial eq_refl eq_refl)
    as (_ & _ & (H & _) & _).
  exact H.
Defined.

(** ** The sidebar's handlers *)

(** X17. Saving a non-blank title.  When the PATCH succeeds the rename
    closes and the history is refreshed: the cached list becomes the list
    fetched, or the empty list when the refresh fails; only the earlier
    App.js, on a refresh failure with a [null] body, keeps the list it had.
    When the PATCH fails the rename stays open with the title as typed,
    [App]'s state is as before, no refresh is sent and one alert is shown;
    only the earlier App.js, on a failure with a [null] body, shows none. *)
Theorem rename_closes_on_success_only :
  forall (earlier : bool) (patch : Api.axios unit)
         (get : Api.axios (list Session.Chat)) (chatId : option Js.str)
         (s : Client.State),
    blank (Sidebar.newChatName (Client.sidebar s)) = false ->
    let h := if earlier then Client.appJs else Client.appService in
    let after := fst (Client.handleSaveRename h patch get chatId s) in
    let calls := snd (Client.handleSaveRename h patch get chatId s) in
    let sent := Session.Patch chatId
                  {| Session.new_problem :=
                       Some (Js.trim (Sidebar.newChatName (Client.sidebar s)));
                     Session.new_pinned := None |} in
    match patch with
    | Api.Fulfilled _ =>
        Client.sidebar after = Sidebar.endRename (Client.sidebar s) /\
        calls = [sent; Session.Get] /\
        Session.chatHistory (Client.app after) =
          match get with
          | Api.Fulfilled data => data
          | Api.Failed _ =>
              if earlier && hasNullBody get
              then Session.chatHistory (Client.app s) else []
          end
    | Api.Failed _ =>
        Client.sidebar after = Client.sidebar s /\
        Client.app after = Client.app s /\
        storeRequests calls = [sent] /\
        List.length (alerts calls) =
          (if earlier && hasNullBody patch then 0 else 1)%nat
    end /\
    Client.chat after = Client.chat s.
Proof.
  intros earlier patch get chatId s Htitle h after calls sent.
  subst after calls sent h.
  unfold Client.handleSaveRename, Sidebar.handleSaveRename.
  rewrite truthy_trim, Htitle. cbn [negb]. unfold Client.asCallback.
  destruct earlier; destruct patch as [[]|error];
    cbn [Client.handleChatUpdate Client.appJs Client.appService];
    unfold App.handleChatUpdate, AppService.handleChatUpdate,
      Api.updateChatSession, App.fetchChatHistory, AppService.loadChatHistory,
      Api.fetchChatHistory, App.alertFor, App.logThrows, hasNullBody,
      storeRequests, alerts.
  - destruct get as [data|failure]; [simpl; repeat split|].
    destruct (Api.response failure) as [[|detail]|]; simpl; repeat split.
  - destruct (Api.response error) as [[|detail]|];
      try destruct (Api.request error); simpl; repeat split.
  - destruct get as [data|failure]; simpl; repeat split.
  - simpl. repeat split.
Qed.

Lemma rename_closes_on_success_only_witness :
  let editing :=
    Client.inSidebar (Sidebar.onChangeNewChatName (js " Fever "))
      (Client.inSidebar (Sidebar.handleRename sessionS1) Client.initial) in
  snd (Client.handleSaveRename Client.appService (Api.Fulfilled tt)
         (Api.Fulfilled [sessionS1]) (Some (js "s1")) editing) =
  [Session.Patch (Some (js "s1"))
     {| Session.new_problem := Some (js "Fever"); Session.new_pinned := None |};
   Session.Get].
Proof.
  intros editing.
  destruct (rename_closes_on_success_only false (Api.Fulfilled tt)
              (Api.Fulfilled [sessionS1]) (Some (js "s1")) editing eq_refl)
    as [(_ & Hcalls & _) _].
  exact Hcalls.
Defined.

(** X18. Opening the rename of a chat and saving without typing: a chat
    that has no title (absent or empty [problem]) is sent the title
    "Untitled Chat", the text the input was filled with; a chat with a
    non-blank title is sent its own title, trimmed; a chat whose title is
    only white space is sent nothing. *)
Theorem saving_an_unedited_rename :
  forall (patch : Api.axios unit) (get : Api.axios (list Session.Chat))
         (renamed : Session.Chat) (s : Client.State),
    let title := Js.orDefault (Session.problem renamed) (js "Untitled Chat") in
    let sent h :=
      filter (fun e => match e with Session.Patch _ _ => true | _ => false end)
        (snd (Client.handleSaveRename h patch get (Session.chatId renamed)
                (Client.inSidebar (Sidebar.handleRename renamed) s))) in
    let expected :=
      if blank title then []
      else [Session.Patch (Session.chatId renamed)
              {| Session.new_problem := Some (Js.trim title);
                 Session.new_pinned := None |}] in
    (if Js.truthyO (Session.problem renamed) then Some title = Session.problem renamed
     else title = js "Untitled Chat") /\
    sent Client.appJs = expected /\
    sent Client.appService = expected.
Proof.
  intros patch get renamed s title sent expected. split.
  - subst title. destruct (Session.problem renamed) as [[|x r]|]; reflexivity.
  - subst sent expected title.
    unfold Client.handleSaveRename, Sidebar.handleSaveRename.
    change (Sidebar.newChatName
              (Client.sidebar (Client.inSidebar (Sidebar.handleRename renamed) s)))
      with (Js.orDefault (Session.problem renamed) (js "Untitled Chat")).
    rewrite truthy_trim.
    destruct (blank (Js.orDefault (Session.problem renamed) (js "Untitled Chat")));
      cbn [negb].
    + split; reflexivity.
    + unfold Client.asCallback. destruct patch as [[]|error]; simpl.
      * split; reflexivity.
      * split; [|reflexivity]. unfold App.alertFor.
        destruct (Api.response error) as [[|detail]|];
          try destruct (Api.request error); reflexivity.
Qed.

(** X19. Confirming the delete modal: with no chat pending nothing happens
    and no call is made; with a chat pending exactly one DELETE is sent, for
    that chat's id, and the modal is closed afterwards whether the delete
    succeeded or failed.  Both versions of App.js. *)
Theorem confirm_deletes_once_and_closes :
  forall (h : Client.Handlers) (delete : Api.axios unit)
         (get : Api.axios (list Session.Chat)) (s : Client.State),
    h = Client.appJs \/ h = Client.appService ->
    let after := fst (Client.handleConfirmDelete h delete get s) in
    let calls := snd (Client.handleConfirmDelete h delete get s) in
    match Sidebar.deletingChat (Client.sidebar s) with
    | None => after = s /\ calls = []
    | Some pending =>
        filter (fun e => match e with Session.Delete _ => true | _ => false end)
          calls = [Session.Delete (Session.chatId pending)] /\
        Sidebar.deletingChat (Client.sidebar after) = None /\
        Sidebar.isDeleting (Client.sidebar after) = false /\
        Sidebar.renamingChatId (Client.sidebar after) =
          Sidebar.renamingChatId (Client.sidebar s)
    end.
Proof.
  intros h delete get s Hh after calls. subst after calls.
  unfold Client.handleConfirmDelete, Sidebar.handleConfirmDelete.
  destruct (Sidebar.deletingChat (Client.sidebar s)) as [pending|] eqn:Hpending.
  - unfold Client.asCallback.
    destruct Hh as [-> | ->]; destruct delete as [[]|error];
      cbn [Client.handleChatDelete Client.appJs Client.appService];
      unfold App.handleChatDelete, AppService.handleChatDelete,
        Api.deleteChatSession, App.alertFor, App.fetchChatHistory;
      try destruct (Session.isCurrentChat (Client.app s) (Session.chatId pending));
      try (destruct get as [data|failure]; try destruct (App.logThrows failure));
      try (destruct (Api.response error) as [[|detail]|];
           try destruct (Api.request error));
      simpl; repeat split.
  - destruct s as [[history current loadingHistory] sidebar form]. simpl.
    destruct current; auto.
Qed.

Lemma confirm_deletes_once_and_closes_witness :
  let pending := Client.inSidebar (Sidebar.handleDelete sessionS1) Client.initial in
  let after := fst (Client.handleConfirmDelete Client.appJs
                      (Api.Failed networkError) (Api.Fulfilled []) pending) in
  Sidebar.deletingChat (Client.sidebar after) = None /\
  Sidebar.isDeleting (Client.sidebar after) = false.
Proof.
  intros pending after.
  destruct (confirm_deletes_once_and_closes Client.appJs (Api.Failed networkError)
              (Api.Fulfilled []) pending (or_introl eq_refl))
    as (_ & Hclosed & Hidle & _).
  split; [exact Hclosed|exact Hidle].
Defined.

(** X20. Pinning sends one PATCH whose body is only [pinned], the negation
    of the [pinned] of the chat object clicked; nothing of the sidebar's or
    [App]'s state enters it.  So a second click on the same chat object
    sends the same value again, whatever the first did. *)
Theorem pin_sends_negation_of_clicked_chat :
  forall (h : Client.Handlers)
         (patch patch' : Api.axios unit) (get get' : Api.axios (list Session.Chat))
         (clicked : Session.Chat) (s : Client.State),
    h = Client.appJs \/ h = Client.appService ->
    let patches calls :=
      filter (fun e => match e with Session.Patch _ _ => true | _ => false end)
        calls in
    let sent := [Session.Patch (Session.chatId clicked)
                   {| Session.new_problem := None;
                      Session.new_pinned := Some (negb (Session.pinned clicked)) |}] in
    let first := Client.handlePin h patch get clicked s in
    let second := Client.handlePin h patch' get' clicked (fst first) in
    patches (snd first) = sent /\
    patches (snd second) = sent /\
    Sidebar.openMenuId (Client.sidebar (fst first)) = None /\
    Client.chat (fst first) = Client.chat s.
Proof.
  intros h patch patch' get get' clicked s Hh patches sent first second.
  assert (Hone : forall p g (t : Client.State),
             patches (snd (Client.handlePin h p g clicked t)) = sent).
  { intros p g t. subst patches sent.
    unfold Client.handlePin, Sidebar.handlePin, Client.asCallback.
    destruct Hh as [-> | ->]; destruct p as [[]|error];
      cbn [Client.handleChatUpdate Client.appJs Client.appService];
      unfold App.handleChatUpdate, AppService.handleChatUpdate,
        Api.updateChatSession, App.alertFor, App.fetchChatHistory;
      try (destruct g as [data|failure]; try destruct (App.logThrows failure));
      try (destruct (Api.response error) as [[|detail]|];
           try destruct (Api.request error));
      reflexivity. }
  split; [apply Hone|]. split; [apply Hone|].
  subst first. unfold Client.handlePin, Sidebar.handlePin.
  destruct (Client.asCallback _ _) as [[a calls] outcome]. simpl. auto.
Qed.

Lemma pin_sends_negation_of_clicked_chat_witness :
  filter (fun e => match e with Session.Patch _ _ => true | _ => false end)
    (snd (Client.handlePin Client.appService (Api.Fulfilled tt)
            (Api.Fulfilled [sessionS1]) sessionS1 Client.initial)) =
  [Session.Patch (Some (js "s1"))
     {| Session.new_problem := None; Session.new_pinned := Some true |}].
Proof.
  exact (proj1 (pin_sends_negation_of_clicked_chat Client.appService
                  (Api.Fulfilled tt) (Api.Fulfilled tt)
                  (Api.Fulfilled [sessionS1]) (Api.Fulfilled [sessionS1])
                  sessionS1 Client.initial (or_intror eq_refl))).
Defined.

(** ** First submissions *)

Lemma or_trim (s fallback : Js.str) :
  blank s = false -> Js.or (Js.trim s) fallback = Js.trim s.
Proof.
  intros H. unfold Js.or. now rewrite truthy_trim, H.
Qed.

Lemma orNull_trim (s : Js.str) :
  Js.orNull (Js.trim s) = if blank s then None else Some (Js.trim s).
Proof.
  unfold Js.orNull. rewrite truthy_trim. now destruct (blank s).
Qed.

(** X21. The request of a first submission that passes validation carries
    the trimmed name (the fallback "Anonymous" is never sent), the trimmed
    problem or null when it is blank, the trimmed message, and no
    [session_id], whatever session id the state holds.  The user turn shown
    is signed with that same name. *)
Theorem first_request :
  forall c : ChatComponent.State,
    ChatComponent.hasInitialSubmission c = false ->
    valid c = true ->
    ChatComponent.submit c =
      ChatComponent.Awaiting (awaiting c)
        {| ChatComponent.chat_name := Js.trim (ChatComponent.name c);
           ChatComponent.chat_problem :=
             if blank (ChatComponent.problem c) then None
             else Some (Js.trim (ChatComponent.problem c));
           ChatComponent.chat_message := Js.trim (ChatComponent.message c);
           ChatComponent.session_id := None |} /\
    ChatComponent.sender (ChatComponent.userMessage c) =
      Some (Js.trim (ChatComponent.name c)) /\
    ChatComponent.chat_name (ChatComponent.chatData c) <> [].
Proof.
  intros c Hfirst V.
  assert (Hname : blank (ChatComponent.name c) = false).
  { unfold valid in V. rewrite Hfirst in V. simpl in V.
    apply andb_true_iff in V as [V _]. now destruct (blank (ChatComponent.name c)). }
  rewrite (submit_valid c V).
  unfold ChatComponent.chatData, ChatComponent.userMessage.
  rewrite Hfirst, (or_trim _ _ Hname), orNull_trim. cbn [andb].
  repeat split.
  cbn [ChatComponent.chat_name]. intros E. apply trim_nil in E. congruence.
Qed.

Lemma first_request_witness :
  exists s,
    ChatComponent.submit
      (ChatComponent.onChangeName (js " Jane ")
         (ChatComponent.onChangeMessage (js "I have a fever") ChatComponent.initial)) =
    ChatComponent.Awaiting s
      {| ChatComponent.chat_name := js "Jane";
         ChatComponent.chat_problem := None;
         ChatComponent.chat_message := js "I have a fever";
         ChatComponent.session_id := None |}.
Proof.
  eexists.
  exact (proj1 (first_request
                  (ChatComponent.onChangeName (js " Jane ")
                     (ChatComponent.onChangeMessage (js "I have a fever")
                        ChatComponent.initial))
                  eq_refl eq_refl)).
Defined.

(** ** The earlier chat form *)

(** X22. The earlier form reaches the store exactly when name and problem
    are both non-blank, and its submit button is disabled exactly when a
    request is in flight or one of the two is blank.  A blocked submission
    shows the name error first, the problem error otherwise.  A request
    carries the trimmed name and problem, and the trimmed message or null. *)
Theorem earlier_form_requires_name_and_problem :
  forall (onChatComplete : bool)
         (createChat : ClientSide.ChatData -> Js.settled ClientSide.Response)
         (c : ClientSide.State),
    ClientSide.submitDisabled c =
      (ClientSide.loading c || blank (ClientSide.name c)
       || blank (ClientSide.problem c)) /\
    match ClientSide.submit c with
    | ClientSide.Returned s =>
        (blank (ClientSide.name c) || blank (ClientSide.problem c)) = true /\
        ClientSide.handleSubmit onChatComplete createChat c = (s, []) /\
        ClientSide.error s =
          (if blank (ClientSide.name c) then js "Please enter your name"
           else js "Please describe your disease or medical problem") /\
        ClientSide.messages s = ClientSide.messages c
    | ClientSide.Awaiting s request =>
        (blank (ClientSide.name c) || blank (ClientSide.problem c)) = false /\
        request =
          {| ClientSide.chat_name := Js.trim (ClientSide.name c);
             ClientSide.chat_problem := Js.trim (ClientSide.problem c);
             ClientSide.chat_message :=
               if blank (ClientSide.message c) then None
               else Some (Js.trim (ClientSide.message c)) |} /\
        ClientSide.loading s = true /\
        ClientSide.messages s = ClientSide.messages c
    end.
Proof.
  intros onCC createChat c.
  unfold ClientSide.submitDisabled, ClientSide.handleSubmit, ClientSide.submit.
  rewrite !truthy_trim, !negb_involutive.
  split; [reflexivity|].
  destruct (blank (ClientSide.name c)) eqn:Hname; cbn [negb orb].
  - repeat split.
  - destruct (blank (ClientSide.problem c)) eqn:Hproblem; cbn [negb].
    + repeat split.
    + unfold ClientSide.chatData.
      rewrite (or_trim _ _ Hname), orNull_trim. repeat split.
Qed.

(** X23. The earlier form is single-shot: a successful submission appends
    the user turn and the reply and empties all three fields, so the form
    asks for a name again; submitting once more, even after typing a new
    message, is blocked and sends nothing. *)
Theorem earlier_form_is_single_shot :
  forall (onChatComplete : bool)
         (createChat again : ClientSide.ChatData -> Js.settled ClientSide.Response)
         (c s : ClientSide.State) (request : ClientSide.ChatData)
         (response : ClientSide.Response) (typed : Js.str),
    ClientSide.submit c = ClientSide.Awaiting s request ->
    createChat request = Js.Resolved response ->
    let done := fst (ClientSide.handleSubmit onChatComplete createChat c) in
    let retry := ClientSide.handleSubmit onChatComplete again
                   (ClientSide.onChangeMessage typed done) in
    ClientSide.name done = [] /\
    ClientSide.problem done = [] /\
    ClientSide.message done = [] /\
    List.length (ClientSide.messages done) =
      S (S (List.length (ClientSide.messages c))) /\
    ClientSide.submitDisabled done = true /\
    snd retry = [] /\
    ClientSide.error (fst retry) = js "Please enter your name".
Proof.
  intros onCC createChat again c s request response typed Hsubmit Hok done retry.
  assert (Hdone : exists answer text flags turns,
             done = {| ClientSide.name := []; ClientSide.problem := [];
                       ClientSide.message := []; ClientSide.response := answer;
                       ClientSide.loading := false; ClientSide.error := text;
                       ClientSide.fieldErrors := flags;
                       ClientSide.messages := ClientSide.messages c ++ turns |} /\
             List.length turns = 2%nat).
  { subst done. unfold ClientSide.handleSubmit. rewrite Hsubmit, Hok.
    unfold ClientSide.submit in Hsubmit.
    destruct (negb (Js.truthy (Js.trim (ClientSide.name c)))); [discriminate|].
    destruct (negb (Js.truthy (Js.trim (ClientSide.problem c)))); [discriminate|].
    injection Hsubmit as <- <-. simpl. do 4 eexists. split; reflexivity. }
  destruct Hdone as (answer & text & flags & turns & Hdone & Hturns).
  subst retry. rewrite Hdone. simpl. rewrite List.length_app, Hturns.
  repeat split. lia.
Qed.

Lemma earlier_form_is_single_shot_witness :
  let ok := fun _ : ClientSide.ChatData =>
    Js.Resolved {| ClientSide.ai_response := Some (js "Rest and drink water.");
                   ClientSide.id := Some (js "s1") |} in
  let done := fst (ClientSide.handleSubmit true ok janeFeverClientSide) in
  ClientSide.name done = [] /\
  snd (ClientSide.handleSubmit true ok
         (ClientSide.onChangeMessage (js "And now?") done)) = [].
Proof.
  intros ok done.
  destruct (earlier_form_is_single_shot true ok ok janeFeverClientSide _ _
              {| ClientSide.ai_response := Some (js "Rest and drink water.");
                 ClientSide.id := Some (js "s1") |}
              (js "And now?") eq_refl eq_refl)
    as (Hname & _ & _ & _ & _ & Hretry & _).
  split; [exact Hname|exact Hretry].
Defined.

(** ** A reply that arrives after another chat was opened *)

(** X24. [handleSubmit] does not check which conversation a reply belongs
    to.  If a chat of the history is opened while a request is in flight,
    the reply is appended to the transcript of the opened chat and loading
    ends.  When the request was a first submission, the form is moreover
    bound to the session and the patient info of the request, under the
    transcript of the opened chat; when it was a follow-up, the session id
    changes only if the reply carries a non-empty id other than the one the
    request was made under. *)
Theorem late_reply_lands_in_opened_chat :
  forall (onChatComplete : bool) (c : ChatComponent.State)
         (opened : Session.Chat) (response : ChatComponent.Response),
    valid c = true ->
    let switched := ChatComponent.useEffect_currentChat (Some opened) (awaiting c) in
    let final := fst (ChatComponent.settle onChatComplete c
                        (Js.Resolved response) switched) in
    let sessionId :=
      Js.orO (Js.orO (ChatComponent.id response) (ChatComponent._id response)) None in
    ChatComponent.submit c = ChatComponent.Awaiting (awaiting c) (ChatComponent.chatData c) /\
    ChatComponent.messages final =
      ChatComponent.messages switched ++
      [{| ChatComponent.type := ChatComponent.ai;
          ChatComponent.content :=
            Some (Js.orDefault (ChatComponent.ai_response response) []);
          ChatComponent.sender := None;
          ChatComponent.additional := None |}] /\
    ChatComponent.loading final = false /\
    ChatComponent.hasInitialSubmission final = true /\
    (if ChatComponent.hasInitialSubmission c
     then
       ChatComponent.initialPatientInfo final =
         ChatComponent.initialPatientInfo switched /\
       ChatComponent.currentSessionId final =
         (if Js.truthyO sessionId
             && negb (Js.eqbO sessionId (ChatComponent.currentSessionId c))
          then sessionId else Js.orO (Session.chatId opened) None)
     else
       ChatComponent.initialPatientInfo final =
         {| ChatComponent.patient_name := Js.trim (ChatComponent.name c);
            ChatComponent.patient_problem :=
              Js.or (Js.trim (ChatComponent.problem c)) ChatComponent.noDisease |} /\
       ChatComponent.currentSessionId final = sessionId).
Proof.
  intros onCC c opened response V switched final sessionId.
  split; [now apply submit_valid|].
  subst final switched sessionId.
  unfold ChatComponent.settle, ChatComponent.useEffect_currentChat,
    ChatComponent.useEffect_chat.
  destruct (ChatComponent.hasInitialSubmission c) eqn:Hactive; cbn [negb].
  - destruct (Js.truthyO _ && negb _);
      destruct (Session.messages opened) as [[|turn turns]|], onCC;
      simpl; repeat split.
  - assert (Hname : blank (ChatComponent.name c) = false).
    { unfold valid in V. rewrite Hactive in V. simpl in V.
      apply andb_true_iff in V as [V _].
      now destruct (blank (ChatComponent.name c)). }
    rewrite (or_trim _ _ Hname).
    destruct (Session.messages opened) as [[|turn turns]|], onCC;
      simpl; repeat split.
Qed.

Lemma late_reply_lands_in_opened_chat_witness :
  let final :=
    fst (ChatComponent.settle true janeAsks (Js.Resolved replyForS2)
           (ChatComponent.useEffect_currentChat (Some sessionS1) (awaiting janeAsks))) in
  List.length (ChatComponent.messages final) = 3%nat /\
  ChatComponent.currentSessionId final = Some (js "s2").
Proof.
  intros final.
  destruct (late_reply_lands_in_opened_chat true janeAsks sessionS1 replyForS2 eq_refl)
    as (_ & Hm & _ & _ & _ & Hsid).
  split; [|exact Hsid].
  subst final. rewrite Hm. reflexivity.
Defined.
